(** * pydlm: the hidden engine of the dynamic linear model ([pydlm/func/_dlm.py])

    A shallow embedding of class [_dlm]: the result ledger [_result], the
    forward filter, the backward smoother, in-sample and incremental
    prediction, and the save/restore of the model status.  The engine is a
    Python object mutated in place, and a raised exception leaves every write
    made before it: the methods are embedded in a state monad whose outcome is
    a returned value or a raised exception, the state surviving in both cases.

    The Kalman recursions ([pydlm.base.kalmanFilter]) and the builder
    ([pydlm.modeler.builder]) are imported by the file and live elsewhere:
    they are variables of the section [Engine]. *)

From stdpp Require Import base list strings gmap numbers.
From Stdlib Require Import QArith.

Open Scope Z_scope.

(** ** Python values held by the model and the ledger

    A slot of the ledger is [None] until it is computed; afterwards it holds
    whatever the filter produced (a float or a numpy matrix), which the engine
    only copies around.  [num] is the type of those numeric objects. *)

Inductive pyval (num : Type) : Type :=
| PyNone
| PyInt (z : Z)
| PyNum (x : num).

Arguments PyNone {num}.
Arguments PyInt {num} z.
Arguments PyNum {num} x.

(** ** Exceptions

    Every error of the engine is a [NameError]; the message tells them apart. *)

Inductive message : Type :=
| MsgBeforeStartNotFiltered      (* _forwardFilter: 'The data before start date has yet to be filtered! ...' *)
| MsgLastDayNotFiltered          (* _backwardSmoother: 'The last day has to be filtered before smoothing! ...' *)
| MsgOutOfSample                 (* _predictInSample: 'The range is out of sample.' *)
| MsgBeyondDataRange             (* _oneDayAheadPredict: 'The date is beyond the data range.' *)
| MsgContinueBeforeOneDay        (* _continuePredict: '_continoousPredict can only be used after _oneDayAheadPredict' *)
| MsgFeatureDictAndDateNone      (* 'FeatureDict and date cannot be None at the same time.' *)
| MsgNoFeatureFor (name : string)(* 'Both date and featureDict are not provided for component ' + i *)
| MsgDateNotFiltered             (* _setModelStatus: 'The date has yet to be filtered yet. ...' *)
| MsgSizeMismatch (name : string)(* _checkFeatureSize *).

Inductive exn : Type :=
| NameError (m : message)
| IndexError
| KeyError (key : string)
| AttributeError (attr : string)
| TypeError
| ValueError.

(** The taxonomy of the errors of the engine. *)
Inductive error_class : Type := SequencingError | RangeError | FeatureError.

Definition classify (m : message) : option error_class :=
  match m with
  | MsgBeforeStartNotFiltered | MsgLastDayNotFiltered
  | MsgDateNotFiltered | MsgContinueBeforeOneDay => Some SequencingError
  | MsgOutOfSample | MsgBeyondDataRange => Some RangeError
  | MsgFeatureDictAndDateNone | MsgNoFeatureFor _ => Some FeatureError
  | MsgSizeMismatch _ => None
  end.

Inductive outcome (A : Type) : Type :=
| Return (a : A)
| Raise (e : exn).

Arguments Return {A} a.
Arguments Raise {A} e.

(** ** Python lists *)

Module Py.
Section Lists.
Context {A : Type}.

(** [len(l)] *)
Definition len (l : list A) : Z := Z.of_nat (length l).

(** The position an index denotes: a negative index counts from the end. *)
Definition index (l : list A) (i : Z) : option nat :=
  if 0 <=? i then (if i <? len l then Some (Z.to_nat i) else None)
  else (if - len l <=? i then Some (Z.to_nat (len l + i)) else None).

(** [l[i]] *)
Definition getitem (l : list A) (i : Z) : outcome A :=
  match index l i with
  | Some k => match l !! k with Some v => Return v | None => Raise IndexError end
  | None => Raise IndexError
  end.

(** [l[i] = v] *)
Definition setitem (l : list A) (i : Z) (v : A) : outcome (list A) :=
  match index l i with
  | Some k => Return (<[k:=v]> l)
  | None => Raise IndexError
  end.

(** A slice bound, clipped to the list as Python does. *)
Definition clip (l : list A) (i : Z) : Z :=
  if i <? 0 then Z.max (i + len l) 0 else Z.min i (len l).

(** [l[a:b]], either bound possibly omitted. *)
Definition slice (l : list A) (a b : option Z) : list A :=
  let lo := match a with Some a => clip l a | None => 0 end in
  let hi := match b with Some b => clip l b | None => len l end in
  take (Z.to_nat (hi - lo)) (drop (Z.to_nat lo) l).

(** [row[0, a:b] = feature] on a numpy row: the feature fills the slice when
    the lengths agree, a single value is broadcast, anything else is a
    [ValueError]. *)
Definition slice_assign (row : list A) (a b : Z) (feature : list A)
  : outcome (list A) :=
  let lo := Z.to_nat (clip row a) in
  let hi := Z.to_nat (clip row b) in
  let width := (hi - lo)%nat in
  if decide (length feature = width)
  then Return (take lo row ++ feature ++ drop (lo + width) row)
  else match feature with
       | [v] => Return (take lo row ++ replicate width v ++ drop (lo + width) row)
       | _ => Raise ValueError
       end.

End Lists.

(** [range(a, b)] *)
Definition range (a b : Z) : list Z :=
  (fun k => a + Z.of_nat k) <$> seq 0 (Z.to_nat (b - a)).

(** [int(x)] of a finite float: truncation toward zero. *)
Definition int (x : Q) : Z := Z.quot (Qnum x) (Z.pos (Qden x)).

(** [(z > x)] for an integer [z] and a float [x] *)
Definition gtb_ZQ (z : Z) (x : Q) : bool := negb (Qle_bool (inject_Z z) x).

(** [(x > 0.0)] *)
Definition posb (x : Q) : bool := negb (Qle_bool x 0).

End Py.

(** Dictionaries whose iteration order matters (the component registries)
    are association lists in insertion order. *)
Module Dict.
Section Assoc.
Context {V : Type}.

Definition keys (d : list (string * V)) : list string := fst <$> d.

Fixpoint get (d : list (string * V)) (k : string) : option V :=
  match d with
  | [] => None
  | (k', v) :: d' => if String.eqb k k' then Some v else get d' k
  end.

(** [d[k] = v] for a key already present keeps its place. *)
Fixpoint set (d : list (string * V)) (k : string) (v : V) : list (string * V) :=
  match d with
  | [] => [(k, v)]
  | (k', v') :: d' =>
      if String.eqb k k' then (k', v) :: d' else (k', v') :: set d' k v
  end.

End Assoc.
End Dict.

(** ** The objects of the engine *)

(** [model.prediction]: the one-step-ahead prediction held inside the model. *)
Module Prediction.
Section Fields.
Context {num : Type}.

Record t : Type := mk {
  state : pyval num;
  sysVar : pyval num;
  obs : pyval num;
  obsVar : pyval num;
  step : pyval num
}.

Definition set_state (v : pyval num) (p : t) : t :=
  mk v (sysVar p) (obs p) (obsVar p) (step p).
Definition set_sysVar (v : pyval num) (p : t) : t :=
  mk (state p) v (obs p) (obsVar p) (step p).
Definition set_obs (v : pyval num) (p : t) : t :=
  mk (state p) (sysVar p) v (obsVar p) (step p).
Definition set_obsVar (v : pyval num) (p : t) : t :=
  mk (state p) (sysVar p) (obs p) v (step p).
Definition set_step (v : pyval num) (p : t) : t :=
  mk (state p) (sysVar p) (obs p) (obsVar p) v.

End Fields.
Arguments t : clear implicits.
End Prediction.

(** [builder.model]: the state of the linear-Gaussian model. *)
Module Model.
Section Fields.
Context {num : Type}.

Record t : Type := mk {
  state : pyval num;
  sysVar : pyval num;
  noiseVar : pyval num;
  df : pyval num;
  obs : pyval num;
  obsVar : pyval num;
  evaluation : list (pyval num);
  transition : pyval num;
  prediction : Prediction.t num
}.

Definition set_state (v : pyval num) (m : t) : t :=
  mk v (sysVar m) (noiseVar m) (df m) (obs m) (obsVar m)
     (evaluation m) (transition m) (prediction m).
Definition set_sysVar (v : pyval num) (m : t) : t :=
  mk (state m) v (noiseVar m) (df m) (obs m) (obsVar m)
     (evaluation m) (transition m) (prediction m).
Definition set_noiseVar (v : pyval num) (m : t) : t :=
  mk (state m) (sysVar m) v (df m) (obs m) (obsVar m)
     (evaluation m) (transition m) (prediction m).
Definition set_df (v : pyval num) (m : t) : t :=
  mk (state m) (sysVar m) (noiseVar m) v (obs m) (obsVar m)
     (evaluation m) (transition m) (prediction m).
Definition set_obs (v : pyval num) (m : t) : t :=
  mk (state m) (sysVar m) (noiseVar m) (df m) v (obsVar m)
     (evaluation m) (transition m) (prediction m).
Definition set_obsVar (v : pyval num) (m : t) : t :=
  mk (state m) (sysVar m) (noiseVar m) (df m) (obs m) v
     (evaluation m) (transition m) (prediction m).
Definition set_evaluation (v : list (pyval num)) (m : t) : t :=
  mk (state m) (sysVar m) (noiseVar m) (df m) (obs m) (obsVar m)
     v (transition m) (prediction m).
Definition set_prediction (v : Prediction.t num) (m : t) : t :=
  mk (state m) (sysVar m) (noiseVar m) (df m) (obs m) (obsVar m)
     (evaluation m) (transition m) v.

(** [model.prediction.f = v] *)
Definition on_prediction (f : Prediction.t num -> Prediction.t num) (m : t) : t :=
  set_prediction (f (prediction m)) m.

End Fields.
Arguments t : clear implicits.
End Model.

(** A dynamic or automatic component, as far as the engine reads it. *)
Module Component.
Section Fields.
Context {num : Type}.

Record t : Type := mk {
  componentType : string;
  d : Z;
  n : Z;
  evaluation : list (pyval num)
}.

End Fields.
Arguments t : clear implicits.
End Component.

(** [self.builder] *)
Module Builder.
Section Fields.
Context {num : Type}.

Record t : Type := mk {
  model : Model.t num;
  statePrior : pyval num;
  sysVarPrior : pyval num;
  noiseVar : pyval num;
  renewTerm : Q;
  dynamicComponents : list (string * Component.t num);
  automaticComponents : list (string * Component.t num);
  componentIndex : gmap string (Z * Z)
}.

Definition set_model (v : Model.t num) (b : t) : t :=
  mk v (statePrior b) (sysVarPrior b) (noiseVar b) (renewTerm b)
     (dynamicComponents b) (automaticComponents b) (componentIndex b).
Definition set_dynamicComponents (v : list (string * Component.t num)) (b : t) : t :=
  mk (model b) (statePrior b) (sysVarPrior b) (noiseVar b) (renewTerm b)
     v (automaticComponents b) (componentIndex b).
Definition set_automaticComponents (v : list (string * Component.t num)) (b : t) : t :=
  mk (model b) (statePrior b) (sysVarPrior b) (noiseVar b) (renewTerm b)
     (dynamicComponents b) v (componentIndex b).

End Fields.
Arguments t : clear implicits.
End Builder.

(** The names of the fourteen series of the ledger: [_result.records]. *)
Inductive record : Type :=
| filteredObs | predictedObs | smoothedObs
| filteredObsVar | predictedObsVar | smoothedObsVar
| noiseVar | df
| filteredState | predictedState | smoothedState
| filteredCov | predictedCov | smoothedCov.

Definition records : list record :=
  [filteredObs; predictedObs; smoothedObs; filteredObsVar;
   predictedObsVar; smoothedObsVar; noiseVar; df;
   filteredState; predictedState; smoothedState;
   filteredCov; predictedCov; smoothedCov].

#[global] Instance record_eq_dec : EqDecision record.
Proof. solve_decision. Defined.

(** [self.result]: class [_result].  The series are reached by name
    ([getattr]/[setattr] over [records] in the source). *)
Module Result.
Section Fields.
Context {num : Type}.

Record t : Type := mk {
  series : record -> list (pyval num);
  filteredSteps : Z * Z;
  smoothedSteps : Z * Z;
  filteredType : option string;
  predictStatus : option (Z * Z * list (pyval num))
}.

(** [setattr(self, variable, l)] *)
Definition set_series (f : record) (l : list (pyval num)) (r : t) : t :=
  mk (fun g => if decide (g = f) then l else series r g)
     (filteredSteps r) (smoothedSteps r) (filteredType r) (predictStatus r).
Definition set_predictStatus (v : option (Z * Z * list (pyval num))) (r : t) : t :=
  mk (series r) (filteredSteps r) (smoothedSteps r) (filteredType r) v.

(** [_result.__init__(n)] *)
Definition init (n : Z) : t :=
  mk (fun _ => replicate (Z.to_nat n) PyNone) (0, -1) (0, -1) None None.

End Fields.
Arguments t : clear implicits.
End Result.

(** [self]: the engine once [_initialize] has run (before it [result] and
    [Filter] are [None] and no method below gets past its first line).  The
    plotting options, [time] and [_printInfo] play no part in the methods
    embedded here. *)
Module Dlm.
Section Fields.
Context {num : Type}.

Record t : Type := mk {
  data : list (pyval num);
  n : Z;
  result : Result.t num;
  builder : Builder.t num
}.

Definition set_result (v : Result.t num) (s : t) : t :=
  mk (data s) (n s) v (builder s).
Definition set_builder (v : Builder.t num) (s : t) : t :=
  mk (data s) (n s) (result s) v.

(** [self.builder.model] *)
Definition model (s : t) : Model.t num := Builder.model (builder s).
Definition set_model (v : Model.t num) (s : t) : t :=
  set_builder (Builder.set_model v (builder s)) s.

End Fields.
Arguments t : clear implicits.
End Dlm.

(** The [save] argument of [_forwardFilter]: ['all'] or a date. *)
Inductive save_arg : Type :=
| SaveStr (s : string)
| SaveInt (z : Z).

(** [save == 'all' or save == step] *)
Definition save_here (save : save_arg) (step : Z) : bool :=
  match save with
  | SaveStr s => String.eqb s "all"
  | SaveInt z => z =? step
  end.

(** ** Sample objects

    Stand-ins for the collaborators, with integers for the numeric objects,
    and a few engines to run the methods on. *)
Module Sample.

(** The filtered observation is the observation; the prediction kept with it
    is the filtered observation of the step before. *)
Definition forwardFilter (m : Model.t Z) (y : pyval Z) : Model.t Z :=
  Model.set_obs y
    (Model.set_state y (Model.on_prediction (Prediction.set_obs (Model.obs m)) m)).

(** A random-walk forecast: the predicted observation is the current one. *)
Definition predict (m : Model.t Z) : Model.t Z :=
  Model.on_prediction (Prediction.set_obs (Model.obs m)) m.

Definition backwardSmoother (m : Model.t Z) (rawState rawSysVar : pyval Z)
  : Model.t Z :=
  Model.set_state rawState (Model.set_sysVar rawSysVar m).

Definition initializeObservation (m : Model.t Z) : Model.t Z :=
  Model.set_obs (Model.state m) m.

Definition comp_updateEvaluation (c : Component.t Z) (date : Z) : Component.t Z := c.

Definition builder_evaluation (b : Builder.t Z) (t : Z) : list (pyval Z) :=
  Model.evaluation (Builder.model b).

Definition builder_initialize (b : Builder.t Z) : Builder.t Z := b.

Definition model0 (row : list (pyval Z)) : Model.t Z :=
  Model.mk (PyNum 0) (PyNum 1) (PyNum 1) (PyInt 1) PyNone PyNone row PyNone
    (Prediction.mk PyNone PyNone PyNone PyNone PyNone).

(** A builder with a static component only. *)
Definition builder0 : Builder.t Z :=
  Builder.mk (model0 [PyNum 1]) (PyNum 0) (PyNum 1) (PyNum 1) (-1) [] [] ∅.

(** A builder with two dynamic components, [a] then [b], of one feature each. *)
Definition builder_dynamic : Builder.t Z :=
  Builder.mk (model0 [PyNum 0; PyNum 0]) (PyNum 0) (PyNum 1) (PyNum 1) (-1)
    [("a", Component.mk "dynamic" 0 3 [PyNum 0]);
     ("b", Component.mk "dynamic" 0 3 [PyNum 0])]
    []
    (<["a" := (0, 0)]> (<["b" := (1, 1)]> ∅)).

(** A builder with an autoregressive component of lag order 2. *)
Definition builder_autoReg : Builder.t Z :=
  Builder.mk (model0 [PyNum 1; PyNum 0; PyNum 0]) (PyNum 0) (PyNum 1) (PyNum 1) (-1)
    []
    [("ar2", Component.mk "autoReg" 2 3 [PyNum 0; PyNum 0])]
    (<["ar2" := (1, 2)]> ∅).

Definition series3 : list (pyval Z) := [PyNum 1; PyNum 2; PyNum 3].

(** A ledger whose three dates have been filtered (the caller has set
    [filteredSteps] to [[0, 2]]). *)
Definition ledger3 : Result.t Z :=
  Result.mk (fun _ => series3) (0, 2) (0, -1) None None.

Definition filtered3 (b : Builder.t Z) : Dlm.t Z :=
  Dlm.mk series3 3 ledger3 b.

(** The same, a one-day-ahead forecast from date 1 having been made. *)
Definition forecasting3 (b : Builder.t Z) : Dlm.t Z :=
  Dlm.mk series3 3
    (Result.set_predictStatus (Some (1, 2, [PyNum 2])) ledger3) b.

(** An engine just initialized on three observations. *)
Definition fresh3 : Dlm.t Z :=
  Dlm.mk series3 3 (Result.init 3) builder0.

(** Three filtered dates and two forecasts made from date 0. *)
Definition forecasting3_twice (b : Builder.t Z) : Dlm.t Z :=
  Dlm.mk series3 3
    (Result.set_predictStatus (Some (0, 2, [PyNum 1; PyNum 2])) ledger3) b.

End Sample.

(** ** The engine *)

Declare Scope dlm_scope.
Delimit Scope dlm_scope with dlm.

Section Engine.

Context {num : Type}.

(** The collaborators of the engine.  [kalmanFilter] and the model update
    their [model] argument in place; here they return the updated model. *)
Variable Filter_forwardFilter : Model.t num -> pyval num -> Model.t num.
Variable Filter_predict : Model.t num -> Model.t num.
Variable Filter_backwardSmoother :
  Model.t num -> pyval num -> pyval num -> Model.t num.
Variable model_initializeObservation : Model.t num -> Model.t num.
(** [comp.updateEvaluation(date)] of a component: the component afterwards. *)
Variable comp_updateEvaluation : Component.t num -> Z -> Component.t num.
(** The evaluation row the builder regenerates for a date. *)
Variable builder_evaluation : Builder.t num -> Z -> list (pyval num).
(** [builder.initialize()] *)
Variable builder_initialize : Builder.t num -> Builder.t num.

Local Abbreviation state := (Dlm.t num).
Local Abbreviation value := (pyval num).

(** *** The monad of the methods *)

Definition M (A : Type) : Type := state -> state * outcome A.

Definition ret {A : Type} (a : A) : M A := fun s => (s, Return a).

Definition raise {A : Type} (e : exn) : M A := fun s => (s, Raise e).

Definition bind {A B : Type} (m : M A) (k : A -> M B) : M B :=
  fun s =>
    match m s with
    | (s', Return a) => k a s'
    | (s', Raise e) => (s', Raise e)
    end.

Definition lift {A : Type} (o : outcome A) : M A := fun s => (s, o).

Definition gets {A : Type} (f : state -> A) : M A := fun s => (s, Return (f s)).

Definition modify (f : state -> state) : M unit := fun s => (f s, Return tt).

Notation "x <- m ;; k" := (bind m (fun x => k))
  (at level 100, m at next level, right associativity) : dlm_scope.
Notation "m ;; k" := (bind m (fun _ => k))
  (at level 100, right associativity) : dlm_scope.
Local Open Scope dlm_scope.

(** [for x in xs: body] *)
Fixpoint for_ {X : Type} (xs : list X) (body : X -> M unit) : M unit :=
  match xs with
  | [] => ret tt
  | x :: xs' => body x ;; for_ xs' body
  end.

(** [for x in xs: body], the body updating a local variable. *)
Fixpoint fold_for {X L : Type} (xs : list X) (local : L)
    (body : L -> X -> M L) : M L :=
  match xs with
  | [] => ret local
  | x :: xs' => local' <- body local x ;; fold_for xs' local' body
  end.

(** *** Reading and writing the objects *)

(** [self.builder.model.f = ...] *)
Definition modify_model (f : Model.t num -> Model.t num) : M unit :=
  modify (fun s => Dlm.set_model (f (Dlm.model s)) s).

Definition modify_builder (f : Builder.t num -> Builder.t num) : M unit :=
  modify (fun s => Dlm.set_builder (f (Dlm.builder s)) s).

(** [self.result.f[i]] *)
Definition result_get (f : record) (i : Z) : M value :=
  l <- gets (fun s => Result.series (Dlm.result s) f) ;;
  lift (Py.getitem l i).

(** [self.result.f[i] = v] *)
Definition result_set (f : record) (i : Z) (v : value) : M unit :=
  l <- gets (fun s => Result.series (Dlm.result s) f) ;;
  l' <- lift (Py.setitem l i v) ;;
  modify (fun s => Dlm.set_result (Result.set_series f l' (Dlm.result s)) s).

(** [self.data[i]] *)
Definition data_get (i : Z) : M value :=
  l <- gets Dlm.data ;;
  lift (Py.getitem l i).

(** [self.builder.componentIndex[i]] *)
Definition componentIndex_get (i : string) : M (Z * Z) :=
  idx <- gets (fun s => Builder.componentIndex (Dlm.builder s)) ;;
  match idx !! i with
  | Some r => ret r
  | None => raise (KeyError i)
  end.

(** *** The builder *)

(** Modelled from the spec: [builder.updateEvaluation(t)], of
    [pydlm/modeler/builder.py], regenerates the time-varying evaluation row
    of the model for the time index [t]. *)
Definition builder_updateEvaluation (t : Z) : M unit :=
  row <- gets (fun s => builder_evaluation (Dlm.builder s) t) ;;
  modify_model (Model.set_evaluation row).

(** [if len(self.builder.dynamicComponents) > 0 or
        len(self.builder.automaticComponents) > 0:
        self.builder.updateEvaluation(t)] *)
Definition refreshEvaluation (t : Z) : M unit :=
  b <- gets Dlm.builder ;;
  if (0 <? Py.len (Builder.dynamicComponents b))
     || (0 <? Py.len (Builder.automaticComponents b))
  then builder_updateEvaluation t
  else ret tt.

(** *** [_initialize] *)

Definition _initialize (data : list value) (b : Builder.t num) : state :=
  let n := Py.len data in
  Dlm.mk data n (Result.init n) (builder_initialize b).

(** *** [_result._appendResult] and [_result._popout] *)

Definition _appendResult (n : Z) : M unit :=
  for_ records (fun variable =>
    l <- gets (fun s => Result.series (Dlm.result s) variable) ;;
    modify (fun s =>
      Dlm.set_result
        (Result.set_series variable (l ++ replicate (Z.to_nat n) PyNone)
           (Dlm.result s)) s)).

Definition _popout (date : Z) : M unit :=
  for_ records (fun variable =>
    l <- gets (fun s => Result.series (Dlm.result s) variable) ;;
    match Py.index l date with
    | Some k =>
        modify (fun s =>
          Dlm.set_result (Result.set_series variable (delete k l) (Dlm.result s)) s)
    | None => raise IndexError
    end).

(** *** [_copy] and [_reverseCopy]

    Both are always called with [self.builder.model] and [self.result]. *)

(** [result.f[step] = model.x] *)
Definition store (f : record) (step : Z) (x : Model.t num -> value) : M unit :=
  m <- gets Dlm.model ;;
  result_set f step (x m).

(** [model.x = result.f[step]] *)
Definition load (f : record) (step : Z) (x : value -> Model.t num -> Model.t num)
  : M unit :=
  v <- result_get f step ;;
  modify_model (x v).

Definition _copy (step : Z) (filterType : string) : M unit :=
  if String.eqb filterType "forwardFilter" then
    store filteredObs step Model.obs ;;
    store predictedObs step (fun m => Prediction.obs (Model.prediction m)) ;;
    store filteredObsVar step Model.obsVar ;;
    store predictedObsVar step (fun m => Prediction.obsVar (Model.prediction m)) ;;
    store filteredState step Model.state ;;
    store predictedState step (fun m => Prediction.state (Model.prediction m)) ;;
    store filteredCov step Model.sysVar ;;
    store predictedCov step (fun m => Prediction.sysVar (Model.prediction m)) ;;
    store noiseVar step Model.noiseVar ;;
    store df step Model.df
  else if String.eqb filterType "backwardSmoother" then
    store smoothedState step Model.state ;;
    store smoothedObs step Model.obs ;;
    store smoothedCov step Model.sysVar ;;
    store smoothedObsVar step Model.obsVar
  else ret tt.

Definition _reverseCopy (step : Z) : M unit :=
  load filteredObs step Model.set_obs ;;
  load predictedObs step (fun v => Model.on_prediction (Prediction.set_obs v)) ;;
  load filteredObsVar step Model.set_obsVar ;;
  load predictedObsVar step (fun v => Model.on_prediction (Prediction.set_obsVar v)) ;;
  load filteredState step Model.set_state ;;
  load predictedState step (fun v => Model.on_prediction (Prediction.set_state v)) ;;
  load filteredCov step Model.set_sysVar ;;
  load predictedCov step (fun v => Model.on_prediction (Prediction.set_sysVar v)) ;;
  load noiseVar step Model.set_noiseVar ;;
  load df step Model.set_df.

(** *** [_setModelStatus] and [_resetModelStatus] *)

Definition _setModelStatus (date : Z) : M unit :=
  fs <- gets (fun s => Result.filteredSteps (Dlm.result s)) ;;
  if (date <? fst fs) || (date >? snd fs)
  then raise (NameError MsgDateNotFiltered)
  else
    _reverseCopy date ;;
    refreshEvaluation date.

Definition _resetModelStatus : M unit :=
  b <- gets Dlm.builder ;;
  modify_model (Model.set_state (Builder.statePrior b)) ;;
  modify_model (Model.set_sysVar (Builder.sysVarPrior b)) ;;
  modify_model (Model.set_noiseVar (Builder.noiseVar b)) ;;
  modify_model (Model.set_df (PyInt 1)) ;;
  modify_model model_initializeObservation.

(** *** [_forwardFilter] *)

(** [self.Filter.forwardFilter(self.builder.model, self.data[t])] *)
Definition filterStep (t : Z) : M unit :=
  y <- data_get t ;;
  modify_model (fun m => Filter_forwardFilter m y).

(** The body of the loop over [step]; [lastRenewPoint] is its local variable. *)
Definition forwardStep (save : save_arg) (renew : bool)
    (lastRenewPoint step : Z) : M Z :=
  refreshEvaluation step ;;
  renewTerm <- gets (fun s => Builder.renewTerm (Dlm.builder s)) ;;
  lastRenewPoint' <-
    (if renew && Py.gtb_ZQ (step - lastRenewPoint) renewTerm && Py.posb renewTerm
     then
       _resetModelStatus ;;
       for_ (Py.range (step - Py.int renewTerm) step) filterStep ;;
       ret step
     else ret lastRenewPoint) ;;
  filterStep step ;;
  (if save_here save step then _copy step "forwardFilter" else ret tt) ;;
  ret lastRenewPoint'.

Definition _forwardFilter (start : Z) (end_ : option Z) (save : save_arg)
    (ForgetPrevious renew : bool) : M unit :=
  n <- gets Dlm.n ;;
  let end_ := match end_ with Some e => e | None => n - 1 end in
  if start >? end_ then ret tt
  else
    (if (start =? 0) || ForgetPrevious then _resetModelStatus
     else
       fs <- gets (fun s => Result.filteredSteps (Dlm.result s)) ;;
       if start >? snd fs + 1
       then raise (NameError MsgBeforeStartNotFiltered)
       else _setModelStatus (start - 1)) ;;
    fold_for (Py.range start (end_ + 1)) start (forwardStep save renew) ;;
    ret tt.

(** *** [_backwardSmoother] *)

(** [end]: the last date the smoother reaches. *)
Definition smootherEnd (start : Z) (days : option Z) : Z :=
  match days with
  | None => 0
  | Some days => Z.max (start - days + 1) 0
  end.

(** The body of the loop over [day]. *)
Definition backwardStep (day : Z) : M unit :=
  load predictedState (day + 1) (fun v => Model.on_prediction (Prediction.set_state v)) ;;
  load predictedCov (day + 1) (fun v => Model.on_prediction (Prediction.set_sysVar v)) ;;
  refreshEvaluation day ;;
  rawState <- result_get filteredState day ;;
  rawSysVar <- result_get filteredCov day ;;
  modify_model (fun m => Filter_backwardSmoother m rawState rawSysVar) ;;
  _copy day "backwardSmoother".

Definition _backwardSmoother (start : option Z) (days : option Z)
    (ignoreFuture : bool) : M unit :=
  n <- gets Dlm.n ;;
  let start := match start with Some d => d | None => n - 1 end in
  let end_ := smootherEnd start days in
  fs <- gets (fun s => Result.filteredSteps (Dlm.result s)) ;;
  if snd fs <? start then raise (NameError MsgLastDayNotFiltered)
  else
    start <-
      (if (start =? n - 1) || ignoreFuture then
         v <- result_get filteredState start ;; result_set smoothedState start v ;;
         v <- result_get filteredObs start ;; result_set smoothedObs start v ;;
         v <- result_get filteredCov start ;; result_set smoothedCov start v ;;
         v <- result_get filteredObsVar start ;; result_set smoothedObsVar start v ;;
         load noiseVar start Model.set_noiseVar ;;
         ret (start - 1)
       else
         load noiseVar (n - 1) Model.set_noiseVar ;;
         ret start) ;;
    if start <? end_ then ret tt
    else
      load smoothedState (start + 1) Model.set_state ;;
      load smoothedCov (start + 1) Model.set_sysVar ;;
      for_ (reverse (Py.range end_ (start + 1))) backwardStep.

(** *** [_predictInSample] *)

Definition predictStep (date : Z)
    (lists : list value * list value) (i : Z) : M (list value * list value) :=
  refreshEvaluation (date + i) ;;
  modify_model Filter_predict ;;
  m <- gets Dlm.model ;;
  predictedObs <- lift (Py.setitem (fst lists) (i - 1)
                          (Prediction.obs (Model.prediction m))) ;;
  predictedObsVar <- lift (Py.setitem (snd lists) (i - 1)
                             (Prediction.obsVar (Model.prediction m))) ;;
  ret (predictedObs, predictedObsVar).

Definition _predictInSample (date days : Z) : M (list value * list value) :=
  n <- gets Dlm.n ;;
  if date + days >? n - 1 then raise (NameError MsgOutOfSample)
  else
    let predictedObs := replicate (Z.to_nat days) PyNone in
    let predictedObsVar := replicate (Z.to_nat days) PyNone in
    _setModelStatus date ;;
    modify_model (Model.on_prediction (Prediction.set_step (PyInt 0))) ;;
    fold_for (Py.range 1 days) (predictedObs, predictedObsVar) (predictStep date).

(** *** [_constructEvaluationForPrediction] *)

(** [self.builder.model.evaluation[0, idx[0]:(idx[1] + 1)] = feature] *)
Definition write_slice (i : string) (feature : list value) : M unit :=
  row <- gets (fun s => Model.evaluation (Dlm.model s)) ;;
  idx <- componentIndex_get i ;;
  row' <- lift (Py.slice_assign row (fst idx) (snd idx + 1) feature) ;;
  modify_model (Model.set_evaluation row').

(** One of the two loops of the method, over the registry that [get] reads
    and [set] writes. *)
Definition overrideStep
    (get : Builder.t num -> list (string * Component.t num))
    (set : list (string * Component.t num) -> Builder.t num -> Builder.t num)
    (featureDict : gmap string (list value)) (date : option Z)
    (i : string) : M unit :=
  match featureDict !! i with
  | Some feature => write_slice i feature
  | None =>
      match date with
      | None => raise (NameError (MsgNoFeatureFor i))
      | Some date =>
          registry <- gets (fun s => get (Dlm.builder s)) ;;
          match Dict.get registry i with
          | None => raise (KeyError i)
          | Some comp =>
              let comp := comp_updateEvaluation comp date in
              modify_builder (set (Dict.set registry i comp)) ;;
              write_slice i (Component.evaluation comp)
          end
      end
  end.

Definition _constructEvaluationForPrediction
    (featureDict : option (gmap string (list value))) (date : option Z)
  : M unit :=
  match featureDict, date with
  | None, None => raise (NameError MsgFeatureDictAndDateNone)
  | None, Some date =>
      builder_updateEvaluation date ;;
      modify_model (fun m => Model.set_evaluation (Model.evaluation m) m)
  | Some featureDict, _ =>
      dynamic <- gets (fun s => Builder.dynamicComponents (Dlm.builder s)) ;;
      for_ (Dict.keys dynamic)
        (overrideStep Builder.dynamicComponents Builder.set_dynamicComponents
           featureDict date) ;;
      automatic <- gets (fun s => Builder.automaticComponents (Dlm.builder s)) ;;
      for_ (Dict.keys automatic)
        (overrideStep Builder.automaticComponents Builder.set_automaticComponents
           featureDict date) ;;
      (* matrix(...) of the row *)
      modify_model (fun m => Model.set_evaluation (Model.evaluation m) m)
  end.

(** *** [_oneDayAheadPredict] and [_continuePredict] *)

Definition _oneDayAheadPredict (date : Z)
    (featureDict : option (gmap string (list value))) : M (value * value) :=
  n <- gets Dlm.n ;;
  if date >? n - 1 then raise (NameError MsgBeyondDataRange)
  else
    _setModelStatus date ;;
    _constructEvaluationForPrediction featureDict (Some (date + 1)) ;;
    modify_model (Model.on_prediction (Prediction.set_step (PyInt 0))) ;;
    modify_model Filter_predict ;;
    m <- gets Dlm.model ;;
    let predictedObs := Prediction.obs (Model.prediction m) in
    let predictedObsVar := Prediction.obsVar (Model.prediction m) in
    modify (fun s =>
      Dlm.set_result
        (Result.set_predictStatus (Some (date, date + 1, [predictedObs]))
           (Dlm.result s)) s) ;;
    ret (predictedObs, predictedObsVar).

(** [self.result.predictStatus], which must not be [None] to be indexed. *)
Definition result_predictStatus : M (Z * Z * list value) :=
  ps <- gets (fun s => Result.predictStatus (Dlm.result s)) ;;
  match ps with
  | Some ps => ret ps
  | None => raise TypeError
  end.

(** [self.predictStatus]: the engine itself has no such attribute
    ([__init__] sets [data], [n], [result], [builder], [Filter],
    [initialized], [options], [time] and [_printInfo]). *)
Definition self_predictStatus : M (Z * Z * list value) :=
  raise (AttributeError "predictStatus").

(** The body of the loop over the automatic components; [featureDict] is
    the local variable it rebinds and fills. *)
Definition lagFeatureStep (currentDate : Z)
    (featureDict : option (gmap string (list value))) (name : string)
  : M (option (gmap string (list value))) :=
  automatic <- gets (fun s => Builder.automaticComponents (Dlm.builder s)) ;;
  match Dict.get automatic name with
  | None => raise (KeyError name)
  | Some comp =>
      if negb (String.eqb (Component.componentType comp) "autoReg")
      then ret featureDict
      else
        ps <- result_predictStatus ;;
        feature <-
          (if Py.len (snd ps) >=? Component.d comp
           then ret (Py.slice (snd ps) (Some (- Component.d comp)) None)
           else
             own <- self_predictStatus ;;
             let extra := Component.d comp - Py.len (snd own) in
             data <- gets Dlm.data ;;
             ps <- result_predictStatus ;;
             ret (Py.slice data (Some (currentDate - extra + 1))
                    (Some (currentDate + 1)) ++ snd ps)) ;;
        let featureDict :=
          match featureDict with Some d => d | None => ∅ end in
        ret (Some (<[name := feature]> featureDict))
  end.

Definition _continuePredict (featureDict : option (gmap string (list value)))
  : M (value * value) :=
  ps <- gets (fun s => Result.predictStatus (Dlm.result s)) ;;
  match ps with
  | None => raise (NameError MsgContinueBeforeOneDay)
  | Some (_, currentDate, _) =>
      automatic <- gets (fun s => Builder.automaticComponents (Dlm.builder s)) ;;
      featureDict <-
        fold_for (Dict.keys automatic) featureDict (lagFeatureStep currentDate) ;;
      _constructEvaluationForPrediction featureDict (Some (currentDate + 1)) ;;
      modify_model Filter_predict ;;
      m <- gets Dlm.model ;;
      let predictedObs := Prediction.obs (Model.prediction m) in
      let predictedObsVar := Prediction.obsVar (Model.prediction m) in
      ps <- result_predictStatus ;;
      modify (fun s =>
        Dlm.set_result
          (Result.set_predictStatus
             (Some (fst (fst ps), snd (fst ps) + 1, snd ps)) (Dlm.result s)) s) ;;
      ps <- result_predictStatus ;;
      modify (fun s =>
        Dlm.set_result
          (Result.set_predictStatus
             (Some (fst (fst ps), snd (fst ps), snd ps ++ [predictedObs]))
             (Dlm.result s)) s) ;;
      ret (predictedObs, predictedObsVar)
  end.

(** *** [_checkFeatureSize] and [_clean] *)

Definition _checkFeatureSize : M unit :=
  dynamic <- gets (fun s => Builder.dynamicComponents (Dlm.builder s)) ;;
  if 0 <? Py.len dynamic then
    for_ (Dict.keys dynamic) (fun name =>
      dynamic <- gets (fun s => Builder.dynamicComponents (Dlm.builder s)) ;;
      n <- gets Dlm.n ;;
      match Dict.get dynamic name with
      | None => raise (KeyError name)
      | Some comp =>
          if negb (Component.n comp =? n)
          then raise (NameError (MsgSizeMismatch name))
          else ret tt
      end)
  else ret tt.

Definition _clean : M unit :=
  modify (fun s =>
    Dlm.set_result (Result.set_predictStatus None (Dlm.result s)) s).

(** ** Reasoning about the methods

    [wp m s Qr Qe]: run from [s], the method [m] either returns [a] in a
    state [s'] with [Qr a s'], or raises [e] in a state [s'] with [Qe e s']. *)

Definition wp {A : Type} (m : M A) (s : state)
    (Qr : A -> state -> Prop) (Qe : exn -> state -> Prop) : Prop :=
  match m s with
  | (s', Return a) => Qr a s'
  | (s', Raise e) => Qe e s'
  end.

(** [spec R E m]: whatever the outcome, the final state is [R]-related to
    the initial one, and a raised exception is in [E]. *)
Definition spec {A : Type} (R : relation state) (E : exn -> Prop) (m : M A)
  : Prop :=
  forall s, wp m s (fun _ s' => R s s') (fun e s' => R s s' /\ E e).

(** The final state agrees with the initial one on the observation [f]. *)
Definition keeps {B : Type} (f : state -> B) : relation state :=
  fun s s' => f s' = f s.

Definition anything : relation state := fun _ _ => True.

Definition any_exn : exn -> Prop := fun _ => True.

Definition not_NameError : exn -> Prop :=
  fun e => match e with NameError _ => False | _ => True end.

Definition no_exn : exn -> state -> Prop := fun _ _ => False.

(** The series of the ledger all have the length of the data. *)
Definition ledger_sized (s : state) : Prop :=
  forall f, Py.len (Result.series (Dlm.result s) f) = Dlm.n s.

(** The slot of the series [f] at position [i]. *)
Definition slot (f : record) (i : Z) (s : state) : option value :=
  Result.series (Dlm.result s) f !! Z.to_nat i.

(** The engine operations a caller can invoke, for statements about all of
    them; [run] discards what they return. *)
Inductive call : Type :=
| ForwardFilter (start : Z) (end_ : option Z) (save : save_arg)
    (ForgetPrevious renew : bool)
| BackwardSmoother (start days : option Z) (ignoreFuture : bool)
| PredictInSample (date days : Z)
| OneDayAheadPredict (date : Z) (featureDict : option (gmap string (list value)))
| ContinuePredict (featureDict : option (gmap string (list value)))
| ConstructEvaluationForPrediction
    (featureDict : option (gmap string (list value))) (date : option Z)
| SetModelStatus (date : Z)
| ResetModelStatus
| CheckFeatureSize.

Definition run (c : call) : M unit :=
  match c with
  | ForwardFilter start end_ save ForgetPrevious renew =>
      _forwardFilter start end_ save ForgetPrevious renew
  | BackwardSmoother start days ignoreFuture =>
      _backwardSmoother start days ignoreFuture
  | PredictInSample date days => _predictInSample date days ;; ret tt
  | OneDayAheadPredict date featureDict =>
      _oneDayAheadPredict date featureDict ;; ret tt
  | ContinuePredict featureDict => _continuePredict featureDict ;; ret tt
  | ConstructEvaluationForPrediction featureDict date =>
      _constructEvaluationForPrediction featureDict date
  | SetModelStatus date => _setModelStatus date
  | ResetModelStatus => _resetModelStatus
  | CheckFeatureSize => _checkFeatureSize
  end.

(** [m] calls of [_continuePredict], one per feature dictionary of [fds]. *)
Fixpoint continueMany (fds : list (option (gmap string (list value))))
  : M (list (value * value)) :=
  match fds with
  | [] => ret []
  | fd :: fds' =>
      r <- _continuePredict fd ;;
      rs <- continueMany fds' ;;
      ret (r :: rs)
  end.

(** The state differs from [s] in the evaluation row of the model at most. *)
Definition same_but_evaluation : relation state :=
  fun s s' =>
    exists row, s' = Dlm.set_model (Model.set_evaluation row (Dlm.model s)) s.

(** The ledger is well formed: its series have the length of the data and
    the filtered range lies among the valid indices (or is the empty
    [[0, -1]]). *)
Definition ledger_ok (s : state) : Prop :=
  ledger_sized s
  /\ 0 <= fst (Result.filteredSteps (Dlm.result s))
  /\ snd (Result.filteredSteps (Dlm.result s)) < Dlm.n s.

(** What the ledger holds at the date [d] in the series [f]. *)
Definition snapshot (s : state) (d : Z) (f : record) : value :=
  default PyNone (slot f d s).

(** The model once [_reverseCopy] has read the date [d] back into it. *)
Definition restored (s : state) (d : Z) : Model.t num :=
  let snap := snapshot s d in
  Model.set_df (snap df)
    (Model.set_noiseVar (snap noiseVar)
      (Model.on_prediction (Prediction.set_sysVar (snap predictedCov))
        (Model.set_sysVar (snap filteredCov)
          (Model.on_prediction (Prediction.set_state (snap predictedState))
            (Model.set_state (snap filteredState)
              (Model.on_prediction (Prediction.set_obsVar (snap predictedObsVar))
                (Model.set_obsVar (snap filteredObsVar)
                  (Model.on_prediction (Prediction.set_obs (snap predictedObs))
                    (Model.set_obs (snap filteredObs) (Dlm.model s)))))))))).

(** The fields [_copy] saves for the forward filter, each with the series
    that receives it. *)
Definition tracked : list (record * (Model.t num -> value)) :=
  [ (filteredObs, Model.obs);
    (predictedObs, fun m => Prediction.obs (Model.prediction m));
    (filteredObsVar, Model.obsVar);
    (predictedObsVar, fun m => Prediction.obsVar (Model.prediction m));
    (filteredState, Model.state);
    (predictedState, fun m => Prediction.state (Model.prediction m));
    (filteredCov, Model.sysVar);
    (predictedCov, fun m => Prediction.sysVar (Model.prediction m));
    (noiseVar, Model.noiseVar);
    (df, Model.df) ].

(** Two ledgers hold the same entries and the same bookkeeping. *)
Definition same_ledger (r r' : Result.t num) : Prop :=
  (forall f, Result.series r f = Result.series r' f)
  /\ Result.filteredSteps r = Result.filteredSteps r'
  /\ Result.smoothedSteps r = Result.smoothedSteps r'
  /\ Result.filteredType r = Result.filteredType r'
  /\ Result.predictStatus r = Result.predictStatus r'.

(** The series the smoother writes, and for each the filtered series it
    starts from at the boundary. *)
Definition is_smoothed (f : record) : bool :=
  match f with
  | smoothedObs | smoothedObsVar | smoothedState | smoothedCov => true
  | _ => false
  end.

Definition source (f : record) : record :=
  match f with
  | smoothedObs => filteredObs
  | smoothedObsVar => filteredObsVar
  | smoothedState => filteredState
  | smoothedCov => filteredCov
  | f => f
  end.

(** What the smoother maintains, from the state [s0] it was called in: the
    ledger keeps its size, only smoothed series change, and at the date [p]
    the smoothed series listed in [copied] hold the filtered values. *)
Definition smoother_inv (s0 : state) (p : Z) (copied : list record)
    (s : state) : Prop :=
  Dlm.n s = Dlm.n s0
  /\ ledger_sized s
  /\ (forall f, is_smoothed f = false ->
        Result.series (Dlm.result s) f = Result.series (Dlm.result s0) f)
  /\ (forall f, f ∈ copied -> slot f p s = slot (source f) p s0).

(** The forecast cursor of the ledger. *)
Definition cursor (s : state) : option (Z * Z * list value) :=
  Result.predictStatus (Dlm.result s).

(** One forecast step of [_predictInSample], for the date [t], and the
    state of the engine after [k] of them from the date [date]. *)
Definition forecastStep (t : Z) : M unit :=
  refreshEvaluation t ;;
  modify_model Filter_predict.

Fixpoint forecastState (date : Z) (s : state) (k : nat) : state :=
  match k with
  | O => s
  | S k' => fst (forecastStep (date + Z.of_nat (S k')) (forecastState date s k'))
  end.

(** The state [_predictInSample] forecasts from: the model rewound to
    [date], its prediction step counter reset. *)
Definition forecastStart (date : Z) (s : state) : state :=
  fst ((_setModelStatus date ;;
        modify_model (Model.on_prediction (Prediction.set_step (PyInt 0)))) s).

(** The predicted observation and its variance held by the model. *)
Definition predicted_obs (s : state) : value :=
  Prediction.obs (Model.prediction (Dlm.model s)).

Definition predicted_obsVar (s : state) : value :=
  Prediction.obsVar (Model.prediction (Dlm.model s)).

(** The exceptions of [_constructEvaluationForPrediction] without a date. *)
Definition feature_exn : exn -> Prop :=
  fun e =>
    match e with
    | NameError (MsgNoFeatureFor _) => True
    | NameError _ => False
    | _ => True
    end.

(** What a rejected call leaves behind, by the message of its error. *)
Definition rejected (msg : message) (s s' : state) : Prop :=
  match msg with
  | MsgNoFeatureFor _ => same_but_evaluation s s'
  | _ => s' = s
  end.

(** The loop of [_predictInSample] after [k] forecast steps: the state is
    the [k]-th forecast state and the first [k] slots hold the forecasts. *)
Definition forecasts_upto (date : Z) (s1 : state) (size k : nat)
    (lists : list value * list value) : Prop :=
  length (fst lists) = size /\ length (snd lists) = size
  /\ forall j, (j < k)%nat ->
       fst lists !! j = Some (predicted_obs (forecastState date s1 (S j)))
       /\ snd lists !! j = Some (predicted_obsVar (forecastState date s1 (S j))).

(** Everything of the engine but the series of the ledger is the same. *)
Definition same_but_series : relation state :=
  fun s s' =>
    Dlm.data s' = Dlm.data s
    /\ Dlm.n s' = Dlm.n s
    /\ Dlm.builder s' = Dlm.builder s
    /\ Result.filteredSteps (Dlm.result s') = Result.filteredSteps (Dlm.result s)
    /\ Result.smoothedSteps (Dlm.result s') = Result.smoothedSteps (Dlm.result s)
    /\ Result.filteredType (Dlm.result s') = Result.filteredType (Dlm.result s)
    /\ Result.predictStatus (Dlm.result s') = Result.predictStatus (Dlm.result s).

(** The series [_copy] writes for the forward filter. *)
Definition is_forward (f : record) : bool := negb (is_smoothed f).

(** Between two states the series keep their lengths, and every entry at a
    position from 0 on that is not in [W] is the same. *)
Definition writes_only (W : record -> Z -> Prop) : relation state :=
  fun s s' =>
    (forall f, Py.len (Result.series (Dlm.result s') f)
               = Py.len (Result.series (Dlm.result s) f))
    /\ forall f i, 0 <= i -> ~ W f i -> slot f i s' = slot f i s.

(** Only smoothed series differ: the other series, the bookkeeping of the
    ledger, the data and its length are the same. *)
Definition smoothed_only : relation state :=
  fun s s' =>
    (forall f, is_smoothed f = false ->
       Result.series (Dlm.result s') f = Result.series (Dlm.result s) f)
    /\ Result.filteredSteps (Dlm.result s') = Result.filteredSteps (Dlm.result s)
    /\ Result.smoothedSteps (Dlm.result s') = Result.smoothedSteps (Dlm.result s)
    /\ Result.predictStatus (Dlm.result s') = Result.predictStatus (Dlm.result s)
    /\ Dlm.data s' = Dlm.data s
    /\ Dlm.n s' = Dlm.n s.

(** What the filter and the smoother record, and what they read it from. *)
Definition recorded (s : state)
  : (record -> list value) * (Z * Z) * (Z * Z) * list value * Z :=
  (Result.series (Dlm.result s), Result.filteredSteps (Dlm.result s),
   Result.smoothedSteps (Dlm.result s), Dlm.data s, Dlm.n s).

(** The operations other than the filter and the smoother. *)
Definition reads_ledger (c : call) : bool :=
  match c with
  | ForwardFilter _ _ _ _ _ | BackwardSmoother _ _ _ => false
  | _ => true
  end.

(** The check of [_setModelStatus]: the error for a date outside the
    filtered range. *)
Definition unfiltered (date : Z) (s : state) : option message :=
  let fs := Result.filteredSteps (Dlm.result s) in
  if (date <? fst fs) || (date >? snd fs) then Some MsgDateNotFiltered else None.

(** The error of the engine, if any, with which an operation rejects a call
    in the state [s], read off the checks of each method in their order. *)
Definition rejection (c : call) (s : state) : option message :=
  match c with
  | ForwardFilter start end_ _ ForgetPrevious _ =>
      let last := match end_ with Some e => e | None => Dlm.n s - 1 end in
      if start >? last then None
      else if (start =? 0) || ForgetPrevious then None
      else if start >? snd (Result.filteredSteps (Dlm.result s)) + 1
           then Some MsgBeforeStartNotFiltered
           else unfiltered (start - 1) s
  | BackwardSmoother start _ _ =>
      let start := match start with Some d => d | None => Dlm.n s - 1 end in
      if snd (Result.filteredSteps (Dlm.result s)) <? start
      then Some MsgLastDayNotFiltered else None
  | PredictInSample date days =>
      if date + days >? Dlm.n s - 1 then Some MsgOutOfSample
      else unfiltered date s
  | OneDayAheadPredict date _ =>
      if date >? Dlm.n s - 1 then Some MsgBeyondDataRange
      else unfiltered date s
  | ContinuePredict _ =>
      match Result.predictStatus (Dlm.result s) with
      | None => Some MsgContinueBeforeOneDay
      | Some _ => None
      end
  | ConstructEvaluationForPrediction None None => Some MsgFeatureDictAndDateNone
  | ConstructEvaluationForPrediction _ _ => None
  | SetModelStatus date => unfiltered date s
  | ResetModelStatus => None
  | CheckFeatureSize => None
  end.

(** The operations whose errors depend on the checks above only: all but
    [_constructEvaluationForPrediction] with overrides and no date, and
    [_checkFeatureSize], which raise from inside a loop over the components. *)
Definition tabled (c : call) : bool :=
  match c with
  | ConstructEvaluationForPrediction (Some _) None | CheckFeatureSize => false
  | _ => true
  end.

(** The exception [e] is the error [o], or no error of the engine if [o] is
    [None]. *)
Definition agrees (o : option message) (e : exn) : Prop :=
  match e with
  | NameError m => o = Some m
  | _ => o = None
  end.

(** What [_copy] for the forward filter has done so far at the date [step],
    from the state [s]: the builder and the length are those of [s], the
    ledger keeps its size, and the series of [saved] hold the fields of the
    model of [s]. *)
Definition copy_inv (s : state) (step : Z)
    (saved : list (record * (Model.t num -> value))) (s1 : state) : Prop :=
  Dlm.builder s1 = Dlm.builder s
  /\ Dlm.data s1 = Dlm.data s
  /\ Dlm.n s1 = Dlm.n s
  /\ ledger_sized s1
  /\ forall fx, fx ∈ saved -> slot (fst fx) step s1 = Some (snd fx (Dlm.model s)).

(** The data, its length and the lengths of the series are the same. *)
Definition sized_kept : relation state :=
  fun s s' =>
    Dlm.n s' = Dlm.n s
    /\ Dlm.data s' = Dlm.data s
    /\ forall f, Py.len (Result.series (Dlm.result s') f)
                 = Py.len (Result.series (Dlm.result s) f).

(** The data has the length the engine records. *)
Definition data_sized (s : state) : Prop := Py.len (Dlm.data s) = Dlm.n s.

(** The engine has the data and the length of [s], and a ledger of that
    size. *)
Definition sized_as (s : state) (s' : state) : Prop :=
  Dlm.n s' = Dlm.n s /\ Dlm.data s' = Dlm.data s /\ ledger_sized s'.

(** The operation that starts an incremental forecast. *)
Definition opens_forecast (c : call) : bool :=
  match c with
  | OneDayAheadPredict _ _ => true
  | _ => false
  end.

(** The state after a sequence of calls, the caller going on after an
    error. *)
Fixpoint after (cs : list call) (s : state) : state :=
  match cs with
  | [] => s
  | c :: cs' => after cs' (fst (run c s))
  end.

(** The two registries of time-varying components. *)
Definition registries (s : state)
  : list (string * Component.t num) * list (string * Component.t num) :=
  (Builder.dynamicComponents (Dlm.builder s),
   Builder.automaticComponents (Dlm.builder s)).

(** *** Rules *)

Lemma wp_ret {A} (a : A) s Qr Qe : Qr a s -> wp (ret a) s Qr Qe.
Proof. done. Qed.

Lemma wp_raise {A} e s (Qr : A -> state -> Prop) Qe :
  Qe e s -> wp (raise e) s Qr Qe.
Proof. done. Qed.

Lemma wp_bind {A B} (m : M A) (k : A -> M B) s Qr Qe :
  wp m s (fun a s' => wp (k a) s' Qr Qe) Qe -> wp (bind m k) s Qr Qe.
Proof. unfold wp, bind. destruct (m s) as [s' [a|e]]; done. Qed.

Lemma wp_gets {A} (f : state -> A) s Qr Qe : Qr (f s) s -> wp (gets f) s Qr Qe.
Proof. done. Qed.

Lemma wp_modify (f : state -> state) s Qr Qe :
  Qr tt (f s) -> wp (modify f) s Qr Qe.
Proof. done. Qed.

Lemma wp_lift {A} (o : outcome A) s Qr Qe :
  match o with Return a => Qr a s | Raise e => Qe e s end ->
  wp (lift o) s Qr Qe.
Proof. unfold wp, lift. by destruct o. Qed.

Lemma wp_mono {A} (m : M A) s (Qr Qr' : A -> state -> Prop) (Qe Qe' : exn -> state -> Prop) :
  wp m s Qr Qe ->
  (forall a s', Qr a s' -> Qr' a s') ->
  (forall e s', Qe e s' -> Qe' e s') ->
  wp m s Qr' Qe'.
Proof. unfold wp. destruct (m s) as [s' [a|e]]; auto. Qed.

Lemma wp_returns {A} (m : M A) s Qr :
  wp m s Qr no_exn -> exists a s', m s = (s', Return a) /\ Qr a s'.
Proof. unfold wp. destruct (m s) as [s' [a|e]]; [eauto | done]. Qed.

Lemma wp_run {A} (m : M A) s Qr Qe :
  wp m s Qr Qe ->
  match snd (m s) with
  | Return a => Qr a (fst (m s))
  | Raise e => Qe e (fst (m s))
  end.
Proof. unfold wp. by destruct (m s) as [s' [a|e]]. Qed.

Lemma wp_for {X} (I : state -> Prop) (xs : list X) (body : X -> M unit) s Qe :
  I s ->
  (forall x s, x ∈ xs -> I s -> wp (body x) s (fun _ => I) Qe) ->
  wp (for_ xs body) s (fun _ => I) Qe.
Proof.
  revert s. induction xs as [|x xs IH]; intros s Hs Hbody; simpl.
  - by apply wp_ret.
  - apply wp_bind. eapply wp_mono; [apply Hbody; [left | done] | | done].
    intros [] s' Hs'. apply IH; [done |]. intros y s'' Hy. apply Hbody. by right.
Qed.

Lemma wp_fold_for {X L} (I : L -> state -> Prop) (xs : list X) (local : L)
    (body : L -> X -> M L) s Qe :
  I local s ->
  (forall l x s, x ∈ xs -> I l s -> wp (body l x) s I Qe) ->
  wp (fold_for xs local body) s I Qe.
Proof.
  revert local s. induction xs as [|x xs IH]; intros l s Hs Hbody; simpl.
  - by apply wp_ret.
  - apply wp_bind. eapply wp_mono; [apply Hbody; [left | done] | | done].
    intros l' s' Hs'. apply IH; [done |]. intros l'' y s'' Hy. apply Hbody. by right.
Qed.

#[local] Instance keeps_preorder {B} (f : state -> B) : PreOrder (keeps f).
Proof. split; unfold keeps; [by intros s | intros s1 s2 s3 H1 H2; congruence]. Qed.

#[local] Instance anything_preorder : PreOrder anything.
Proof. by split. Qed.

Section SpecRules.

Context (R : relation state) `{!PreOrder R} (E : exn -> Prop).

Lemma spec_ret {A} (a : A) : spec R E (ret a).
Proof. intros s. by apply wp_ret. Qed.

Lemma spec_raise {A} e : E e -> spec R E (@raise A e).
Proof. intros He s. by apply wp_raise. Qed.

Lemma spec_gets {A} (f : state -> A) : spec R E (gets f).
Proof. intros s. by apply wp_gets. Qed.

Lemma spec_modify (f : state -> state) :
  (forall s, R s (f s)) -> spec R E (modify f).
Proof. intros Hf s. by apply wp_modify. Qed.

Lemma spec_lift {A} (o : outcome A) :
  (forall e, o = Raise e -> E e) -> spec R E (lift o).
Proof. intros Ho s. apply wp_lift. destruct o; [done | split; [done | auto]]. Qed.

Lemma spec_bind {A B} (m : M A) (k : A -> M B) :
  spec R E m -> (forall a, spec R E (k a)) -> spec R E (bind m k).
Proof.
  intros Hm Hk s. apply wp_bind. eapply wp_mono; [apply Hm | | done].
  intros a s' Hs'. eapply wp_mono; [apply Hk | |]; simpl.
  - intros b s'' Hs''. by trans s'.
  - intros e s'' [Hs'' He]. split; [by trans s' | done].
Qed.

Lemma spec_for {X} (xs : list X) (body : X -> M unit) :
  (forall x, spec R E (body x)) -> spec R E (for_ xs body).
Proof.
  intros Hbody. induction xs as [|x xs IH]; simpl.
  - apply spec_ret.
  - apply spec_bind; [apply Hbody | by intros _].
Qed.

Lemma spec_fold_for {X L} (xs : list X) (local : L) (body : L -> X -> M L) :
  (forall l x, spec R E (body l x)) -> spec R E (fold_for xs local body).
Proof.
  intros Hbody. revert local. induction xs as [|x xs IH]; intros l; simpl.
  - apply spec_ret.
  - apply spec_bind; [apply Hbody | done].
Qed.

End SpecRules.

(** One step of a proof of [spec R E m], following the shape of [m]. *)
Ltac spec_step :=
  lazymatch goal with
  | |- spec ?R ?E (bind ?m ?k) => apply (spec_bind R E m k); [| intros ?]
  | |- spec ?R ?E (ret ?a) => apply (spec_ret R E a)
  | |- spec ?R ?E (gets ?f) => apply (spec_gets R E f)
  | |- spec ?R ?E (for_ ?xs ?body) => apply (spec_for R E xs body); intros ?
  | |- spec ?R ?E (fold_for ?xs ?l ?body) =>
      apply (spec_fold_for R E xs l body); intros ? ?
  | |- spec _ _ (if ?b then _ else _) => destruct b
  | |- spec _ _ (match ?x with _ => _ end) => destruct x
  end.

(** *** Methods that write the builder and the series only

    For a relation [R] that no write to the builder or to a series breaks,
    and exceptions [E] that include every exception but [NameError]. *)
Section Frames.

Context (R : relation state) `{!PreOrder R} (E : exn -> Prop).
Hypothesis builder_frame : forall s b, R s (Dlm.set_builder b s).
Hypothesis series_frame :
  forall s f l, R s (Dlm.set_result (Result.set_series f l (Dlm.result s)) s).
Hypothesis other_exn : forall e, not_NameError e -> E e.

Lemma getitem_exn {A} (l : list A) i e : Py.getitem l i = Raise e -> E e.
Proof.
  unfold Py.getitem. intros H. apply other_exn.
  destruct (Py.index l i); [destruct (l !! _)|]; by simplify_eq.
Qed.

Lemma setitem_exn {A} (l : list A) i v e : Py.setitem l i v = Raise e -> E e.
Proof.
  unfold Py.setitem. intros H. apply other_exn.
  destruct (Py.index l i); by simplify_eq.
Qed.

Lemma slice_assign_exn {A} (row : list A) a b feature e :
  Py.slice_assign row a b feature = Raise e -> E e.
Proof.
  unfold Py.slice_assign. intros H. apply other_exn.
  case_decide; [done |]. destruct feature as [|? [|]]; by simplify_eq.
Qed.

Lemma spec_modify_model f : spec R E (modify_model f).
Proof. apply spec_modify. intros s. apply builder_frame. Qed.

Lemma spec_modify_builder f : spec R E (modify_builder f).
Proof. apply spec_modify. intros s. apply builder_frame. Qed.

Lemma spec_other {A} e : not_NameError e -> spec R E (@raise A e).
Proof. intros He. apply spec_raise; [done |]. by apply other_exn. Qed.

Lemma spec_result_get f i : spec R E (result_get f i).
Proof.
  unfold result_get. spec_step; [spec_step |].
  apply spec_lift; [done |]. apply getitem_exn.
Qed.

Lemma spec_result_set f i v : spec R E (result_set f i v).
Proof.
  unfold result_set. spec_step; [spec_step |]. spec_step.
  - apply spec_lift; [done |]. apply setitem_exn.
  - apply spec_modify. intros s. apply series_frame.
Qed.

Lemma spec_data_get i : spec R E (data_get i).
Proof.
  unfold data_get. spec_step; [spec_step |].
  apply spec_lift; [done |]. apply getitem_exn.
Qed.

Lemma spec_componentIndex_get i : spec R E (componentIndex_get i).
Proof.
  unfold componentIndex_get. spec_step; [spec_step |].
  spec_step; [spec_step | by apply spec_other].
Qed.

(** The steps shared by the proofs below. *)
Ltac frame_step :=
  first [ spec_step
        | apply spec_modify_model | apply spec_modify_builder
        | apply spec_result_get | apply spec_result_set
        | apply spec_data_get | apply spec_componentIndex_get
        | (apply spec_lift; [done |]; first [apply getitem_exn | apply setitem_exn | apply slice_assign_exn])
        | (by apply spec_other) ].

Lemma spec_load f i x : spec R E (load f i x).
Proof. unfold load. repeat frame_step. Qed.

Lemma spec_store f i x : spec R E (store f i x).
Proof. unfold store. repeat frame_step. Qed.

Lemma spec_copy step filterType : spec R E (_copy step filterType).
Proof. unfold _copy. repeat first [apply spec_store | frame_step]. Qed.

Lemma spec_reverseCopy step : spec R E (_reverseCopy step).
Proof. unfold _reverseCopy. repeat first [apply spec_load | frame_step]. Qed.

Lemma spec_builder_updateEvaluation t : spec R E (builder_updateEvaluation t).
Proof. unfold builder_updateEvaluation. repeat frame_step. Qed.

Lemma spec_refreshEvaluation t : spec R E (refreshEvaluation t).
Proof.
  unfold refreshEvaluation.
  repeat first [apply spec_builder_updateEvaluation | frame_step].
Qed.

Lemma spec_resetModelStatus : spec R E _resetModelStatus.
Proof. unfold _resetModelStatus. repeat frame_step. Qed.

Lemma spec_filterStep t : spec R E (filterStep t).
Proof. unfold filterStep. repeat frame_step. Qed.

Lemma spec_forwardStep save renew last step :
  spec R E (forwardStep save renew last step).
Proof.
  unfold forwardStep.
  repeat first [apply spec_refreshEvaluation | apply spec_resetModelStatus
               | apply spec_filterStep | apply spec_copy | frame_step].
Qed.

Lemma spec_backwardStep day : spec R E (backwardStep day).
Proof.
  unfold backwardStep.
  repeat first [apply spec_refreshEvaluation | apply spec_load
               | apply spec_copy | frame_step].
Qed.

Lemma spec_predictStep date lists i : spec R E (predictStep date lists i).
Proof.
  unfold predictStep. repeat first [apply spec_refreshEvaluation | frame_step].
Qed.

Lemma spec_write_slice i feature : spec R E (write_slice i feature).
Proof. unfold write_slice. repeat frame_step. Qed.

Lemma spec_overrideStep get set featureDict date i :
  spec R E (overrideStep get set featureDict (Some date) i).
Proof. unfold overrideStep. repeat first [apply spec_write_slice | frame_step]. Qed.

Lemma spec_constructEvaluationForPrediction featureDict date :
  spec R E (_constructEvaluationForPrediction featureDict (Some date)).
Proof.
  unfold _constructEvaluationForPrediction.
  repeat first [apply spec_overrideStep | apply spec_builder_updateEvaluation
               | frame_step].
Qed.

(** After its check, [_setModelStatus] is such a method. *)
Lemma spec_setModelStatus date :
  E (NameError MsgDateNotFiltered) -> spec R E (_setModelStatus date).
Proof.
  intros He. unfold _setModelStatus.
  repeat first [apply spec_reverseCopy | apply spec_refreshEvaluation
               | frame_step | by apply spec_raise].
Qed.

Lemma spec_forwardFilter start end_ save ForgetPrevious renew :
  E (NameError MsgBeforeStartNotFiltered) ->
  E (NameError MsgDateNotFiltered) ->
  spec R E (_forwardFilter start end_ save ForgetPrevious renew).
Proof.
  intros He1 He2. unfold _forwardFilter.
  repeat first [apply spec_resetModelStatus | by apply spec_setModelStatus
               | apply spec_forwardStep | frame_step | by apply spec_raise].
Qed.

End Frames.

(** *** Indexing in range *)

Lemma index_in_range {A} (l : list A) i :
  0 <= i < Py.len l -> Py.index l i = Some (Z.to_nat i).
Proof.
  intros [H0 H1]. unfold Py.index.
  destruct (Z.leb_spec 0 i); [| lia]. destruct (Z.ltb_spec i (Py.len l)); [done | lia].
Qed.

Lemma getitem_in_range {A} (l : list A) i :
  0 <= i < Py.len l ->
  exists v, l !! Z.to_nat i = Some v /\ Py.getitem l i = Return v.
Proof.
  intros Hi. unfold Py.getitem. rewrite index_in_range by done.
  destruct (lookup_lt_is_Some_2 l (Z.to_nat i)) as [v Hv].
  { unfold Py.len in Hi. lia. }
  exists v. by rewrite Hv.
Qed.

Lemma setitem_in_range {A} (l : list A) i v :
  0 <= i < Py.len l -> Py.setitem l i v = Return (<[Z.to_nat i := v]> l).
Proof. intros Hi. unfold Py.setitem. by rewrite index_in_range. Qed.

Lemma len_insert {A} (l : list A) k v : Py.len (<[k := v]> l) = Py.len l.
Proof. unfold Py.len. by rewrite length_insert. Qed.

(** *** Weakest preconditions of the accessors *)

Lemma wp_modify_model f s Qr Qe :
  Qr tt (Dlm.set_model (f (Dlm.model s)) s) -> wp (modify_model f) s Qr Qe.
Proof. done. Qed.

Lemma wp_result_get f i s Qr Qe :
  match Py.getitem (Result.series (Dlm.result s) f) i with
  | Return v => Qr v s
  | Raise e => Qe e s
  end ->
  wp (result_get f i) s Qr Qe.
Proof.
  intros H. unfold result_get. apply wp_bind, wp_gets. by apply wp_lift.
Qed.

Lemma wp_result_set f i v s Qr Qe :
  match Py.setitem (Result.series (Dlm.result s) f) i v with
  | Return l =>
      Qr tt (Dlm.set_result (Result.set_series f l (Dlm.result s)) s)
  | Raise e => Qe e s
  end ->
  wp (result_set f i v) s Qr Qe.
Proof.
  intros H. unfold result_set. apply wp_bind, wp_gets. apply wp_bind, wp_lift.
  destruct (Py.setitem _ _ _); [by apply wp_modify | done].
Qed.

Lemma wp_load f i x s Qr Qe :
  match Py.getitem (Result.series (Dlm.result s) f) i with
  | Return v => Qr tt (Dlm.set_model (x v (Dlm.model s)) s)
  | Raise e => Qe e s
  end ->
  wp (load f i x) s Qr Qe.
Proof.
  intros H. unfold load. apply wp_bind, wp_result_get.
  destruct (Py.getitem _ _); [by apply wp_modify_model | done].
Qed.

Lemma wp_store f i x s Qr Qe :
  match Py.setitem (Result.series (Dlm.result s) f) i (x (Dlm.model s)) with
  | Return l =>
      Qr tt (Dlm.set_result (Result.set_series f l (Dlm.result s)) s)
  | Raise e => Qe e s
  end ->
  wp (store f i x) s Qr Qe.
Proof. intros H. unfold store. apply wp_bind, wp_gets. by apply wp_result_set. Qed.

Lemma wp_refreshEvaluation t s Qr Qe :
  Qr tt s ->
  (forall row, Qr tt (Dlm.set_model (Model.set_evaluation row (Dlm.model s)) s)) ->
  wp (refreshEvaluation t) s Qr Qe.
Proof.
  intros H0 H1. unfold refreshEvaluation. apply wp_bind, wp_gets.
  destruct (_ || _); [| by apply wp_ret].
  unfold builder_updateEvaluation. apply wp_bind, wp_gets. apply wp_modify_model, H1.
Qed.

(** *** Restoring the model from the ledger *)

Lemma getitem_snapshot s d f :
  ledger_sized s -> 0 <= d < Dlm.n s ->
  Py.getitem (Result.series (Dlm.result s) f) d = Return (snapshot s d f).
Proof.
  intros Hs Hd. destruct (getitem_in_range (Result.series (Dlm.result s) f) d)
    as (v & Hv & ->); [by rewrite Hs |].
  unfold snapshot, slot. by rewrite Hv.
Qed.

Lemma reverseCopy_restores s d :
  ledger_sized s -> 0 <= d < Dlm.n s ->
  _reverseCopy d s = (Dlm.set_model (restored s d) s, Return tt).
Proof.
  intros Hs Hd. unfold _reverseCopy, load, result_get, bind, gets, lift,
    modify_model, modify. simpl.
  by rewrite !getitem_snapshot.
Qed.

Lemma set_evaluation_same (m : Model.t num) :
  Model.set_evaluation (Model.evaluation m) m = m.
Proof. by destruct m. Qed.

Lemma setModelStatus_restores s d :
  ledger_sized s -> 0 <= d < Dlm.n s ->
  fst (Result.filteredSteps (Dlm.result s)) <= d
    <= snd (Result.filteredSteps (Dlm.result s)) ->
  exists row,
    _setModelStatus d s
    = (Dlm.set_model (Model.set_evaluation row (restored s d)) s, Return tt).
Proof.
  intros Hs Hd [Hlo Hhi]. unfold _setModelStatus, bind at 1, gets at 1.
  destruct (Z.ltb_spec d (fst (Result.filteredSteps (Dlm.result s)))); [lia |].
  destruct (Z.gtb_spec d (snd (Result.filteredSteps (Dlm.result s)))); [lia |].
  simpl. unfold bind. rewrite reverseCopy_restores by done.
  unfold refreshEvaluation, builder_updateEvaluation, bind, gets, modify_model,
    modify, ret. simpl.
  destruct (_ || _); simpl.
  - eexists. reflexivity.
  - exists (Model.evaluation (restored s d)). by rewrite set_evaluation_same.
Qed.

Lemma slot_snapshot s d f :
  ledger_sized s -> 0 <= d < Dlm.n s -> slot f d s = Some (snapshot s d f).
Proof.
  intros Hs Hd. unfold snapshot, slot.
  destruct (getitem_in_range (Result.series (Dlm.result s) f) d)
    as (v & Hv & _); [by rewrite Hs |]. by rewrite Hv.
Qed.

(** Storing at [d] what the ledger already holds there leaves it as it is. *)
Lemma store_back s d s1 f x s' :
  ledger_sized s -> 0 <= d < Dlm.n s ->
  x (Dlm.model s1) = snapshot s d f ->
  Dlm.model s' = Dlm.model s1 /\ same_ledger (Dlm.result s') (Dlm.result s) ->
  wp (store f d x) s'
     (fun _ s2 =>
        Dlm.model s2 = Dlm.model s1 /\ same_ledger (Dlm.result s2) (Dlm.result s))
     no_exn.
Proof.
  intros Hs Hd Hx [Hm (Hser & Hrest)]. apply wp_store.
  rewrite setitem_in_range by (rewrite Hser, Hs; done).
  split; [done |]. split; [| done]. intros g. simpl.
  case_decide as Hg; [| done]. subst g. rewrite Hser, Hm, Hx.
  apply list_insert_id. by apply slot_snapshot.
Qed.

Lemma copy_back s d row s' :
  let s1 := Dlm.set_model (Model.set_evaluation row (restored s d)) s in
  ledger_sized s -> 0 <= d < Dlm.n s ->
  Dlm.model s' = Dlm.model s1 /\ same_ledger (Dlm.result s') (Dlm.result s) ->
  wp (_copy d "forwardFilter") s'
     (fun _ s2 =>
        Dlm.model s2 = Dlm.model s1 /\ same_ledger (Dlm.result s2) (Dlm.result s))
     no_exn.
Proof.
  intros s1 Hs Hd HJ. unfold _copy. simpl.
  do 9 (apply wp_bind; eapply wp_mono;
        [ apply (store_back s d s1); [done | done | reflexivity | exact HJ]
        | clear s' HJ; intros [] s' HJ | done ]).
  apply (store_back s d s1); [done | done | reflexivity | exact HJ].
Qed.

(** C9: for a date [d] inside the filtered range, [_setModelStatus d]
    (which restores the model through [_reverseCopy]) followed at once by
    [_copy] with filter type ['forwardFilter'] at step [d] both return, and the
    ledger afterwards holds, in every series and so for every tracked field,
    exactly the values it held before. *)
Theorem setModelStatus_copy_roundtrip (s : state) (d : Z) :
  ledger_ok s ->
  fst (Result.filteredSteps (Dlm.result s)) <= d
    <= snd (Result.filteredSteps (Dlm.result s)) ->
  exists s1 s2,
    _setModelStatus d s = (s1, Return tt)
    /\ _copy d "forwardFilter" s1 = (s2, Return tt)
    /\ same_ledger (Dlm.result s2) (Dlm.result s).
Proof.
  intros (Hs & Hlo & Hhi) Hd.
  assert (0 <= d < Dlm.n s) as Hin by lia.
  destruct (setModelStatus_restores s d Hs Hin Hd) as [row Hrun].
  eexists. rewrite Hrun.
  set (s1 := Dlm.set_model _ s).
  assert (same_ledger (Dlm.result s1) (Dlm.result s)) as Hsame1
    by (repeat split).
  destruct (wp_returns _ _ _ (copy_back s d row s1 Hs Hin (conj eq_refl Hsame1)))
    as ([] & s2 & Hrun2 & _ & Hsame).
  by exists s2.
Qed.

(** *** The forward filter and the filtered range *)

(** C1, as the code has it: [_forwardFilter] never writes [filteredSteps].
    Whatever the series, the arguments and the outcome, the filtered range of
    the ledger after the call is the one before it; moving its upper bound to
    [end] is left to the caller. *)
Theorem forwardFilter_keeps_filteredSteps (s : state) (start : Z)
    (end_ : option Z) (save : save_arg) (ForgetPrevious renew : bool) :
  Result.filteredSteps
    (Dlm.result (fst (_forwardFilter start end_ save ForgetPrevious renew s)))
  = Result.filteredSteps (Dlm.result s).
Proof.
  pose proof (spec_forwardFilter
                (keeps (fun s => Result.filteredSteps (Dlm.result s))) any_exn
                (fun _ _ => eq_refl) (fun _ _ _ => eq_refl) (fun _ _ => I)
                start end_ save ForgetPrevious renew I I s) as H.
  apply wp_run in H. by destruct (snd _); [| destruct H].
Qed.

(** The restored model holds, in every tracked field, what the ledger holds
    at the date. *)
Lemma restored_tracked s d row :
  ledger_sized s -> 0 <= d < Dlm.n s ->
  Forall (fun fx => slot (fst fx) d s
                    = Some (snd fx (Model.set_evaluation row (restored s d))))
    tracked.
Proof.
  intros Hs Hd. unfold tracked.
  repeat constructor; simpl; by apply slot_snapshot.
Qed.

(** C7, as the code has it: the check comes after the no-op test
    [start > end], so it is reached only when [start <= end].  For
    [0 < start <= end] and [ForgetPrevious] false: if
    [start > filteredSteps[1] + 1] the call raises the sequencing error and
    changes nothing; otherwise, on a well-formed ledger whose filtered range
    starts at or before [start - 1], [_setModelStatus (start - 1)] returns with
    the model restored from the ledger at [start - 1] (every tracked field
    holds the entry of its series at [start - 1]), and the call is the
    filtering loop run from that state. *)
Theorem forwardFilter_starts_from_previous (s : state) (start : Z)
    (end_ : option Z) (save : save_arg) (renew : bool) :
  let last := match end_ with Some e => e | None => Dlm.n s - 1 end in
  let fs := Result.filteredSteps (Dlm.result s) in
  0 < start <= last ->
  (start > snd fs + 1 ->
   _forwardFilter start end_ save false renew s
   = (s, Raise (NameError MsgBeforeStartNotFiltered)))
  /\ (start <= snd fs + 1 -> ledger_ok s -> fst fs <= start - 1 ->
      exists row,
        let s1 :=
          Dlm.set_model
            (Model.set_evaluation row (restored s (start - 1))) s in
        _setModelStatus (start - 1) s = (s1, Return tt)
        /\ Forall (fun fx => slot (fst fx) (start - 1) s
                             = Some (snd fx (Dlm.model s1))) tracked
        /\ _forwardFilter start end_ save false renew s
           = (fold_for (Py.range start (last + 1)) start (forwardStep save renew) ;;
              ret tt) s1).
Proof.
  intros last fs [H0 Hle].
  assert (_forwardFilter start end_ save false renew s
          = ((if start >? snd fs + 1
              then raise (NameError MsgBeforeStartNotFiltered)
              else _setModelStatus (start - 1)) ;;
             fold_for (Py.range start (last + 1)) start (forwardStep save renew) ;;
             ret tt) s) as Hrun.
  { unfold _forwardFilter, bind at 1, gets at 1. fold last.
    destruct (Z.gtb_spec start last); [lia |].
    destruct (Z.eqb_spec start 0); [lia |]. simpl.
    unfold bind at 1. unfold bind at 1, gets at 1. fold fs.
    unfold bind at 3. reflexivity. }
  rewrite Hrun. split.
  - intros Hgap. destruct (Z.gtb_spec start (snd fs + 1)); [done | lia].
  - intros Hnext (Hs & Hlo & Hhi) Hfst.
    destruct (Z.gtb_spec start (snd fs + 1)); [lia |].
    destruct (setModelStatus_restores s (start - 1)) as [row Hset];
      [done | fold fs in Hhi; lia | fold fs; lia |].
    exists row. simpl. split; [done |]. split.
    + apply restored_tracked; [done | fold fs in Hhi; lia].
    + unfold bind at 1. by rewrite Hset.
Qed.

(** *** The backward smoother *)

Lemma smoother_inv_model s0 p copied s m :
  smoother_inv s0 p copied s -> smoother_inv s0 p copied (Dlm.set_model m s).
Proof. done. Qed.

(** A write to a smoothed series away from the date [p]. *)
Lemma smoother_inv_write s0 p copied s f day v :
  smoother_inv s0 p copied s -> is_smoothed f = true ->
  0 <= day -> 0 <= p -> day <> p ->
  smoother_inv s0 p copied
    (Dlm.set_result
       (Result.set_series f (<[Z.to_nat day := v]> (Result.series (Dlm.result s) f))
          (Dlm.result s)) s).
Proof.
  intros (Hn & Hs & Hother & Hat) Hf Hday Hp Hne. repeat split; simpl.
  - done.
  - intros g. simpl. case_decide; [subst; rewrite len_insert|]; apply Hs.
  - intros g Hg. case_decide; [congruence | by apply Hother].
  - intros g Hg. unfold slot. simpl. case_decide.
    + subst g. rewrite list_lookup_insert_ne by lia. by apply Hat.
    + by apply Hat.
Qed.

(** The boundary: [result.f[p] = result.(source f)[p]] for a smoothed [f]. *)
Lemma smoother_inv_boundary s0 p copied s f :
  smoother_inv s0 p copied s -> is_smoothed f = true ->
  is_smoothed (source f) = false -> 0 <= p < Dlm.n s0 ->
  wp (v <- result_get (source f) p ;; result_set f p v) s
     (fun _ => smoother_inv s0 p (f :: copied)) no_exn.
Proof.
  intros (Hn & Hs & Hother & Hat) Hf Hsrc Hp.
  apply wp_bind, wp_result_get.
  destruct (getitem_in_range (Result.series (Dlm.result s) (source f)) p)
    as (v & Hv & ->); [rewrite Hs; lia |].
  apply wp_result_set. rewrite setitem_in_range by (rewrite Hs; lia).
  repeat split; simpl.
  - done.
  - intros g. simpl. case_decide; [subst; rewrite len_insert|]; apply Hs.
  - intros g Hg. case_decide; [congruence | by apply Hother].
  - intros g Hg. unfold slot. simpl. case_decide.
    + subst g. rewrite list_lookup_insert_eq.
      * by rewrite <- Hother, Hv.
      * specialize (Hs f). unfold Py.len in Hs. lia.
    + apply Hat. apply elem_of_cons in Hg as [|]; done.
Qed.

Lemma wp_load_sized f i x s (Qr : unit -> state -> Prop) :
  ledger_sized s -> 0 <= i < Dlm.n s ->
  (forall v, Qr tt (Dlm.set_model (x v (Dlm.model s)) s)) ->
  wp (load f i x) s Qr no_exn.
Proof.
  intros Hs Hi HQ. apply wp_load.
  destruct (getitem_in_range (Result.series (Dlm.result s) f) i)
    as (v & _ & ->); [by rewrite Hs | apply HQ].
Qed.

Lemma wp_result_get_sized f i s (Qr : value -> state -> Prop) :
  ledger_sized s -> 0 <= i < Dlm.n s ->
  (forall v, Qr v s) ->
  wp (result_get f i) s Qr no_exn.
Proof.
  intros Hs Hi HQ. apply wp_result_get.
  destruct (getitem_in_range (Result.series (Dlm.result s) f) i)
    as (v & _ & ->); [by rewrite Hs | apply HQ].
Qed.

Lemma wp_store_sized f i x s (Qr : unit -> state -> Prop) :
  ledger_sized s -> 0 <= i < Dlm.n s ->
  Qr tt (Dlm.set_result
           (Result.set_series f
              (<[Z.to_nat i := x (Dlm.model s)]> (Result.series (Dlm.result s) f))
              (Dlm.result s)) s) ->
  wp (store f i x) s Qr no_exn.
Proof.
  intros Hs Hi HQ. apply wp_store. by rewrite setitem_in_range by (by rewrite Hs).
Qed.

Lemma elem_of_range a b x : x ∈ Py.range a b <-> a <= x < b.
Proof.
  unfold Py.range. rewrite list_elem_of_fmap. split.
  - intros (k & -> & Hk). apply elem_of_seq in Hk. lia.
  - intros Hx. exists (Z.to_nat (x - a)). split; [lia |].
    apply elem_of_seq. lia.
Qed.

Lemma wp_seq {A B} (m : M A) (k : A -> M B) s (I : A -> state -> Prop) Qr Qe :
  wp m s I Qe ->
  (forall a s', I a s' -> wp (k a) s' Qr Qe) ->
  wp (bind m k) s Qr Qe.
Proof. intros Hm Hk. apply wp_bind. eapply wp_mono; [exact Hm | exact Hk | done]. Qed.

Lemma wp_assoc {A B C} (m : M A) (k : A -> M B) (k' : B -> M C) s Qr Qe :
  wp (bind (bind m k) k') s Qr Qe ->
  wp (bind m (fun a => bind (k a) k')) s Qr Qe.
Proof.
  unfold wp, bind. destruct (m s) as [s1 [a|e]]; [| done].
  by destruct (k a s1) as [s2 [b|e]].
Qed.

Lemma wp_nest {A B C} (m : M A) (k : A -> M B) (k' : B -> M C) s Qr Qe :
  wp (bind m (fun a => bind (k a) k')) s Qr Qe ->
  wp (bind (bind m k) k') s Qr Qe.
Proof.
  unfold wp, bind. destruct (m s) as [s1 [a|e]]; [| done].
  by destruct (k a s1) as [s2 [b|e]].
Qed.

Section Smoother.

Variables (s0 : state) (p : Z) (copied : list record).
Hypothesis p_range : 0 <= p < Dlm.n s0.

Local Abbreviation inv := (smoother_inv s0 p copied).

Lemma load_inv f i x s :
  inv s -> 0 <= i < Dlm.n s0 -> wp (load f i x) s (fun _ => inv) no_exn.
Proof.
  intros HJ Hi. apply wp_load_sized; [apply HJ | |].
  - destruct HJ as (-> & _). done.
  - intros v. by apply smoother_inv_model.
Qed.

Lemma result_get_inv f i s :
  inv s -> 0 <= i < Dlm.n s0 -> wp (result_get f i) s (fun _ => inv) no_exn.
Proof.
  intros HJ Hi. apply wp_result_get_sized; [apply HJ | | done].
  destruct HJ as (-> & _). done.
Qed.

Lemma store_inv f day x s :
  inv s -> is_smoothed f = true -> 0 <= day < p ->
  wp (store f day x) s (fun _ => inv) no_exn.
Proof.
  intros HJ Hf Hday. apply wp_store_sized; [apply HJ | |].
  - destruct HJ as (-> & _). lia.
  - apply smoother_inv_write; [done | done | lia | lia | lia].
Qed.

Lemma refreshEvaluation_inv t s :
  inv s -> wp (refreshEvaluation t) s (fun _ => inv) no_exn.
Proof. intros HJ. by apply wp_refreshEvaluation. Qed.

Lemma backwardStep_inv day s :
  inv s -> 0 <= day < p -> wp (backwardStep day) s (fun _ => inv) no_exn.
Proof.
  intros HJ Hday. unfold backwardStep.
  eapply wp_seq; [apply load_inv; [done | lia] | clear s HJ; intros [] s HJ].
  eapply wp_seq; [apply load_inv; [done | lia] | clear s HJ; intros [] s HJ].
  eapply wp_seq; [by apply refreshEvaluation_inv | clear s HJ; intros [] s HJ].
  eapply wp_seq; [apply result_get_inv; [done | lia] | clear s HJ; intros rawState s HJ].
  eapply wp_seq; [apply result_get_inv; [done | lia] | clear s HJ; intros rawSysVar s HJ].
  eapply (wp_seq _ _ _ (fun _ => inv));
    [apply wp_modify_model; by apply smoother_inv_model
    | clear s HJ; intros [] s HJ].
  unfold _copy. simpl.
  do 3 (eapply wp_seq; [by apply store_inv | clear s HJ; intros [] s HJ]).
  by apply store_inv.
Qed.

(** The smoothing chain from the rebound [start], which is [p - 1]. *)
Lemma smoother_chain end_ s :
  inv s -> 0 <= end_ ->
  wp (if p - 1 <? end_ then ret tt
      else
        load smoothedState (p - 1 + 1) Model.set_state ;;
        load smoothedCov (p - 1 + 1) Model.set_sysVar ;;
        for_ (reverse (Py.range end_ (p - 1 + 1))) backwardStep) s
     (fun _ => inv) no_exn.
Proof.
  intros HJ Hend. destruct (_ <? _); [by apply wp_ret |].
  replace (p - 1 + 1) with p by lia.
  eapply wp_seq; [by apply load_inv | clear s HJ; intros [] s HJ].
  eapply wp_seq; [by apply load_inv | clear s HJ; intros [] s HJ].
  apply wp_for; [done |]. intros day s' Hday HJ'.
  apply elem_of_reverse, elem_of_range in Hday. apply backwardStep_inv; [done | lia].
Qed.

End Smoother.

Lemma smootherEnd_nonneg start days : 0 <= smootherEnd start days.
Proof. unfold smootherEnd. destruct days; lia. Qed.

Lemma smoother_inv_init s p : ledger_sized s -> smoother_inv s p [] s.
Proof. intros Hs. repeat split; [done..|]. intros f Hf. by apply elem_of_nil in Hf. Qed.

(** The smoother returns whenever its start date has been filtered, and what
    it maintains holds at the end; at the boundary the four smoothed series
    hold the filtered values at the start date. *)
Lemma backwardSmoother_returns s start days ignoreFuture :
  let st := match start with Some d => d | None => Dlm.n s - 1 end in
  let boundary := (st =? Dlm.n s - 1) || ignoreFuture in
  ledger_ok s ->
  0 <= st <= snd (Result.filteredSteps (Dlm.result s)) ->
  wp (_backwardSmoother start days ignoreFuture) s
     (fun _ =>
        smoother_inv s (if boundary then st else st + 1)
          (if boundary
           then [smoothedObsVar; smoothedCov; smoothedObs; smoothedState]
           else []))
     no_exn.
Proof.
  intros st boundary (Hs & Hlo & Hhi) Hst.
  unfold _backwardSmoother. apply wp_bind, wp_gets. fold st.
  apply wp_bind, wp_gets.
  destruct (Z.ltb_spec (snd (Result.filteredSteps (Dlm.result s))) st); [lia |].
  fold boundary. destruct boundary eqn:Hb.
  - eapply (wp_seq _ _ _
              (fun start' s1 =>
                 start' = st - 1
                 /\ smoother_inv s st
                      [smoothedObsVar; smoothedCov; smoothedObs; smoothedState] s1)).
    + pose proof (smoother_inv_init s st Hs) as HJ.
      apply wp_assoc; eapply wp_seq;
        [apply (smoother_inv_boundary s st [] s smoothedState);
         [done | done | done | lia] |].
      clear HJ. intros [] s1 HJ.
      apply wp_assoc; eapply wp_seq;
        [eapply (smoother_inv_boundary s st _ s1 smoothedObs);
         [exact HJ | done | done | lia] |].
      clear s1 HJ. intros [] s1 HJ.
      apply wp_assoc; eapply wp_seq;
        [eapply (smoother_inv_boundary s st _ s1 smoothedCov);
         [exact HJ | done | done | lia] |].
      clear s1 HJ. intros [] s1 HJ.
      apply wp_assoc; eapply wp_seq;
        [eapply (smoother_inv_boundary s st _ s1 smoothedObsVar);
         [exact HJ | done | done | lia] |].
      clear s1 HJ. intros [] s1 HJ.
      eapply wp_seq; [eapply (load_inv s st); first [exact HJ | lia] |].
      clear s1 HJ. intros [] s1 HJ.
      apply wp_ret. by split.
    + intros start' s1 [-> HJ].
      apply smoother_chain; [lia | done | apply smootherEnd_nonneg].
  - apply orb_false_iff in Hb as [Hne%Z.eqb_neq _].
    eapply (wp_seq _ _ _
              (fun start' s1 => start' = st /\ smoother_inv s (st + 1) [] s1)).
    + eapply wp_seq; [apply (load_inv s (st + 1) []);
                      first [lia | by apply smoother_inv_init] |].
      intros [] s1 HJ. apply wp_ret. by split.
    + intros start' s1 [-> HJ].
      pose proof (smoother_chain s (st + 1) [] ltac:(lia) (smootherEnd st days) s1
                    HJ (smootherEnd_nonneg _ _)) as Hchain.
      by replace (st + 1 - 1) with st in Hchain by lia.
Qed.

(** C8: when [start] is the final index of the series or [ignoreFuture] is
    set, and [start] has been filtered, [_backwardSmoother] returns and the
    smoothed observation, observation variance, state and covariance the
    ledger holds at [start] are exactly the filtered values it holds there
    (which the call has not changed). *)
Theorem smoother_boundary_identity (s : state) (start days : option Z)
    (ignoreFuture : bool) :
  let st := match start with Some d => d | None => Dlm.n s - 1 end in
  ledger_ok s ->
  0 <= st <= snd (Result.filteredSteps (Dlm.result s)) ->
  st = Dlm.n s - 1 \/ ignoreFuture = true ->
  exists s',
    _backwardSmoother start days ignoreFuture s = (s', Return tt)
    /\ slot smoothedObs st s' = slot filteredObs st s'
    /\ slot smoothedObsVar st s' = slot filteredObsVar st s'
    /\ slot smoothedState st s' = slot filteredState st s'
    /\ slot smoothedCov st s' = slot filteredCov st s'
    /\ (forall f, is_smoothed f = false -> slot f st s' = slot f st s).
Proof.
  intros st Hok Hst Hb.
  pose proof (backwardSmoother_returns s start days ignoreFuture Hok Hst) as Hwp.
  fold st in Hwp. simpl in Hwp.
  assert ((st =? Dlm.n s - 1) || ignoreFuture = true) as Hb'.
  { destruct Hb as [-> | ->]; [by rewrite Z.eqb_refl | apply orb_true_r]. }
  rewrite Hb' in Hwp.
  apply wp_returns in Hwp as ([] & s' & Hrun & _ & _ & Hother & Hat).
  exists s'. split; [done |].
  assert (forall f, is_smoothed f = false -> slot f st s' = slot f st s) as Hkeep.
  { intros f Hf. unfold slot. by rewrite Hother. }
  repeat split; [| | | | done].
  - rewrite (Hkeep filteredObs) by done. apply Hat. by repeat constructor.
  - rewrite (Hkeep filteredObsVar) by done. apply Hat. by repeat constructor.
  - rewrite (Hkeep filteredState) by done. apply Hat. by repeat constructor.
  - rewrite (Hkeep filteredCov) by done. apply Hat. by repeat constructor.
Qed.

(** C10: when [days] is given and larger than [start + 1], the last date of
    the smoothing chain is clamped to 0 ([end = max(start - days + 1, 0)], which
    is never below 0), the call behaves as the call with [days] left
    unspecified, and it is not an error: it returns whenever [start] has been
    filtered. *)
Theorem smoother_days_clamped (s : state) (start : option Z) (days : Z)
    (ignoreFuture : bool) :
  let st := match start with Some d => d | None => Dlm.n s - 1 end in
  days > st + 1 ->
  smootherEnd st (Some days) = 0
  /\ (forall d, 0 <= smootherEnd st d)
  /\ _backwardSmoother start (Some days) ignoreFuture s
     = _backwardSmoother start None ignoreFuture s
  /\ (ledger_ok s -> 0 <= st <= snd (Result.filteredSteps (Dlm.result s)) ->
      exists s', _backwardSmoother start (Some days) ignoreFuture s
                 = (s', Return tt)).
Proof.
  intros st Hdays.
  assert (smootherEnd st (Some days) = 0) as Hend by (unfold smootherEnd; lia).
  split; [done |]. split; [intros d; apply smootherEnd_nonneg |]. split.
  - cbv beta delta [_backwardSmoother bind gets] iota zeta. fold st.
    rewrite Hend. reflexivity.
  - intros Hok Hst.
    pose proof (backwardSmoother_returns s start (Some days) ignoreFuture Hok Hst)
      as Hwp.
    apply wp_returns in Hwp as ([] & s' & Hrun & _). by exists s'.
Qed.

(** *** Which exceptions a method raises, and what it leaves alone *)

(** Side conditions of the frame lemmas, for the relations used below. *)
Ltac frame_side :=
  solve [ done | apply _ | intros; exact I | intros; reflexivity
        | (intros e He; destruct e; done) ].

Ltac spec_auto :=
  repeat first
    [ spec_step
    | apply spec_modify_model; frame_side
    | apply spec_modify_builder; frame_side
    | apply spec_result_get; frame_side
    | apply spec_result_set; frame_side
    | apply spec_data_get; frame_side
    | apply spec_load; frame_side
    | apply spec_store; frame_side
    | apply spec_copy; frame_side
    | apply spec_reverseCopy; frame_side
    | apply spec_refreshEvaluation; frame_side
    | apply spec_resetModelStatus; frame_side
    | apply spec_filterStep; frame_side
    | apply spec_forwardStep; frame_side
    | apply spec_backwardStep; frame_side
    | apply spec_predictStep; frame_side
    | apply spec_constructEvaluationForPrediction; frame_side
    | apply spec_setModelStatus; frame_side
    | apply spec_modify; frame_side
    | apply spec_raise; frame_side
    | apply spec_lift; [frame_side | intros e He; first [eapply getitem_exn | eapply setitem_exn]; [| exact He]; frame_side ] ].

Lemma quiet_wp {A} (m : M A) s (P : message -> state -> Prop) :
  spec anything not_NameError m ->
  wp m s (fun _ _ => True) (fun e s' => forall msg, e = NameError msg -> P msg s').
Proof.
  intros Hm. eapply wp_mono; [apply Hm | done |].
  intros e s' [_ He] msg ->. done.
Qed.

Lemma keeps_wp {A B} (f : state -> B) (m : M A) s :
  spec (keeps f) any_exn m ->
  wp m s (fun _ s' => f s' = f s) (fun _ _ => True).
Proof. intros Hm. eapply wp_mono; [apply Hm | done | done]. Qed.

(** *** In-sample prediction *)

(** C5, as the code has it: [_predictInSample date days] raises the range
    error if and only if [date + days > n - 1], that is as soon as
    [date + days] reaches the series length [n]. *)
Theorem predictInSample_range_error (s : state) (date days : Z) :
  snd (_predictInSample date days s) = Raise (NameError MsgOutOfSample)
  <-> date + days > Dlm.n s - 1.
Proof.
  set (E := fun e => e <> NameError MsgOutOfSample).
  assert (wp (_predictInSample date days) s
            (fun _ _ => ~ date + days > Dlm.n s - 1)
            (fun e _ => e = NameError MsgOutOfSample <-> date + days > Dlm.n s - 1))
    as Hwp.
  { unfold _predictInSample. apply wp_bind, wp_gets.
    destruct (Z.gtb_spec (date + days) (Dlm.n s - 1)) as [Hgt | Hle].
    - apply wp_raise. split; [lia | done].
    - assert (spec anything E
                (_setModelStatus date ;;
                 modify_model (Model.on_prediction (Prediction.set_step (PyInt 0))) ;;
                 fold_for (Py.range 1 days)
                   (replicate (Z.to_nat days) PyNone, replicate (Z.to_nat days) PyNone)
                   (predictStep date))) as Hspec by (subst E; spec_auto).
      eapply wp_mono; [apply Hspec | intros; lia |].
      intros e s' [_ He]. split; [done | lia]. }
  apply wp_run in Hwp. destruct (snd _) as [a | e]; [| by rewrite <- Hwp; split; [intros [= ->] | intros ->]].
  split; [done | intros; lia].
Qed.

Lemma wp_setModelStatus_sized d s (Qr : unit -> state -> Prop) :
  ledger_ok s ->
  fst (Result.filteredSteps (Dlm.result s)) <= d
    <= snd (Result.filteredSteps (Dlm.result s)) ->
  (forall row,
     Qr tt (Dlm.set_model (Model.set_evaluation row (restored s d)) s)) ->
  wp (_setModelStatus d) s Qr no_exn.
Proof.
  intros (Hs & Hlo & Hhi) Hd HQ.
  destruct (setModelStatus_restores s d Hs ltac:(lia) Hd) as [row Hrun].
  unfold wp. rewrite Hrun. apply HQ.
Qed.

Lemma forecastStep_returns t s :
  forecastStep t s = (fst (forecastStep t s), Return tt).
Proof.
  unfold forecastStep, refreshEvaluation, builder_updateEvaluation, bind, gets,
    modify_model, modify, ret. simpl.
  by destruct (_ || _).
Qed.

Lemma predictStep_run date lists i s :
  0 <= i - 1 < Py.len (fst lists) -> 0 <= i - 1 < Py.len (snd lists) ->
  let s' := fst (forecastStep (date + i) s) in
  predictStep date lists i s
  = (s', Return (<[Z.to_nat (i - 1) := predicted_obs s']> (fst lists),
                 <[Z.to_nat (i - 1) := predicted_obsVar s']> (snd lists))).
Proof.
  intros Ho Hv s'. subst s'.
  unfold predictStep, forecastStep, refreshEvaluation, builder_updateEvaluation,
    bind, gets, modify_model, modify, ret, lift, predicted_obs, predicted_obsVar.
  simpl. destruct (_ || _); simpl; by rewrite !setitem_in_range by done.
Qed.

Lemma predictLoop_run date s1 size m : forall k lists,
  (k + m <= size)%nat ->
  forecasts_upto date s1 size k lists ->
  exists lists',
    fold_for ((fun j => 1 + Z.of_nat j) <$> seq k m) lists (predictStep date)
      (forecastState date s1 k)
    = (forecastState date s1 (k + m), Return lists')
    /\ forecasts_upto date s1 size (k + m) lists'.
Proof.
  induction m as [|m IH]; intros k lists Hk Hinv; simpl.
  - exists lists. by rewrite Nat.add_0_r.
  - destruct Hinv as (Ho & Hv & Hslots).
    unfold bind at 1. rewrite predictStep_run by (unfold Py.len; lia).
    replace (date + (1 + Z.of_nat k)) with (date + Z.of_nat (S k)) by lia.
    replace (Z.to_nat (1 + Z.of_nat k - 1)) with k by lia.
    change (fst (forecastStep (date + Z.of_nat (S k)) (forecastState date s1 k)))
      with (forecastState date s1 (S k)).
    destruct (IH (S k) (<[k := predicted_obs (forecastState date s1 (S k))]> (fst lists),
                        <[k := predicted_obsVar (forecastState date s1 (S k))]> (snd lists)))
      as (lists' & Hrun & Hinv'); [lia | |].
    + repeat split; simpl; [by rewrite length_insert.. | |].
      all: destruct (decide (j = k)) as [-> |];
        [ rewrite list_lookup_insert_eq by lia; done
        | rewrite list_lookup_insert_ne by done; apply Hslots; lia ].
    + exists lists'. rewrite <- Nat.add_succ_comm. split; [exact Hrun | exact Hinv'].
Qed.

(** C4, as the code has it: for a date inside the filtered range and
    [days >= 1] with [date + days <= n - 1], [_predictInSample date days]
    returns a sequence of predicted observations and a sequence of predicted
    observation variances each of length [days]: both are allocated with
    [days] slots.  The prediction step counter is reset to 0, the forecast
    steps [1..days-1] are iterated, and the slot [i - 1] holds the forecast
    of step [i]. *)
Theorem predictInSample_lengths (s : state) (date days : Z) :
  ledger_ok s ->
  fst (Result.filteredSteps (Dlm.result s)) <= date
    <= snd (Result.filteredSteps (Dlm.result s)) ->
  1 <= days ->
  date + days <= Dlm.n s - 1 ->
  exists s' predictedObs predictedObsVar,
    _predictInSample date days s
    = (s', Return (predictedObs, predictedObsVar))
    /\ Py.len predictedObs = days
    /\ Py.len predictedObsVar = days
    /\ Prediction.step (Model.prediction (Dlm.model (forecastStart date s)))
       = PyInt 0
    /\ forall i, 1 <= i <= days - 1 ->
         let si := forecastState date (forecastStart date s) (Z.to_nat i) in
         predictedObs !! Z.to_nat (i - 1) = Some (predicted_obs si)
         /\ predictedObsVar !! Z.to_nat (i - 1) = Some (predicted_obsVar si).
Proof.
  intros Hok Hdate Hdays Hrange.
  destruct (setModelStatus_restores s date) as [row Hset];
    [apply Hok | destruct Hok as (_ & ? & ?); lia | done |].
  assert (forecastStart date s
          = Dlm.set_model
              (Model.on_prediction (Prediction.set_step (PyInt 0))
                 (Model.set_evaluation row (restored s date))) s) as Hstart.
  { unfold forecastStart, bind. by rewrite Hset. }
  destruct (predictLoop_run date (forecastStart date s) (Z.to_nat days)
              (Z.to_nat (days - 1)) 0
              (replicate (Z.to_nat days) PyNone, replicate (Z.to_nat days) PyNone))
    as ([obs var] & Hloop & Ho & Hv & Hslots); [lia | |].
  { repeat split; simpl; [by rewrite length_replicate.. | lia | lia]. }
  exists (forecastState date (forecastStart date s) (Z.to_nat (days - 1))), obs, var.
  simpl in *. repeat split.
  - unfold _predictInSample, bind at 1, gets at 1.
    destruct (Z.gtb_spec (date + days) (Dlm.n s - 1)); [lia |].
    unfold bind at 1. rewrite Hset. unfold bind at 1, modify_model at 1, modify.
    rewrite <- Hloop, Hstart. reflexivity.
  - unfold Py.len. lia.
  - unfold Py.len. lia.
  - by rewrite Hstart.
  - replace (Z.to_nat i) with (S (Z.to_nat (i - 1))) by lia. apply Hslots. lia.
  - replace (Z.to_nat i) with (S (Z.to_nat (i - 1))) by lia. apply Hslots. lia.
Qed.

(** *** Rejected calls *)

#[local] Instance same_but_evaluation_preorder : PreOrder same_but_evaluation.
Proof.
  split.
  - intros s. exists (Model.evaluation (Dlm.model s)).
    destruct s as [data n r [[] ]]. reflexivity.
  - intros s1 s2 s3 [row1 ->] [row2 ->]. by exists row2.
Qed.

Lemma spec_write_slice_row i feature :
  spec same_but_evaluation feature_exn (write_slice i feature).
Proof.
  unfold write_slice, componentIndex_get. spec_auto.
  - apply spec_lift; [apply _ |]. intros e He.
    unfold Py.slice_assign in He. case_decide; [done |].
    destruct feature as [|? [|]]; by simplify_eq.
  - apply spec_modify. intros s. by eexists.
Qed.

Lemma spec_overrideStep_row get set featureDict i :
  spec same_but_evaluation feature_exn (overrideStep get set featureDict None i).
Proof.
  unfold overrideStep. destruct (featureDict !! i).
  - apply spec_write_slice_row.
  - apply spec_raise; [apply _ | exact I].
Qed.

Lemma spec_constructEvaluation_row featureDict :
  spec same_but_evaluation feature_exn
    (_constructEvaluationForPrediction (Some featureDict) None).
Proof.
  unfold _constructEvaluationForPrediction.
  repeat first [apply spec_overrideStep_row | spec_step].
  apply spec_modify. intros s. by eexists.
Qed.

Lemma rejected_quiet {A} (m : M A) s0 s :
  spec anything not_NameError m ->
  wp m s (fun _ _ => True)
     (fun e s' => forall msg, e = NameError msg -> rejected msg s0 s').
Proof. apply quiet_wp. Qed.

Lemma rejected_setModelStatus {A} date (k : M A) s :
  spec anything not_NameError k ->
  wp (_setModelStatus date ;; k) s (fun _ _ => True)
     (fun e s' => forall msg, e = NameError msg -> rejected msg s s').
Proof.
  intros Hk. unfold _setModelStatus. apply wp_nest, wp_bind, wp_gets.
  destruct (_ || _).
  - apply wp_bind, wp_raise. by intros msg [= <-].
  - apply rejected_quiet. spec_auto. exact Hk.
Qed.

Lemma rejected_refl msg s : rejected msg s s.
Proof. destruct msg; simpl; reflexivity. Qed.

Ltac spec_open :=
  progress unfold lagFeatureStep, result_predictStatus, self_predictStatus.

Lemma rejected_wp (c : call) (s : state) :
  wp (run c) s (fun _ _ => True)
     (fun e s' => forall msg, e = NameError msg -> rejected msg s s').
Proof.
  destruct c; simpl.
  - (* _forwardFilter *)
    unfold _forwardFilter. apply wp_bind, wp_gets.
    destruct (_ >? _); [by apply wp_ret |].
    destruct (_ || _).
    + apply rejected_quiet. spec_auto.
    + apply wp_nest, wp_bind, wp_gets. destruct (_ >? _).
      * apply wp_bind, wp_raise. intros msg [= <-]. reflexivity.
      * apply rejected_setModelStatus. spec_auto.
  - (* _backwardSmoother *)
    unfold _backwardSmoother. apply wp_bind, wp_gets. apply wp_bind, wp_gets.
    destruct (_ <? _).
    + apply wp_raise. intros msg [= <-]. reflexivity.
    + apply rejected_quiet. spec_auto.
  - (* _predictInSample *)
    unfold _predictInSample. apply wp_nest, wp_bind, wp_gets.
    destruct (_ >? _).
    + apply wp_bind, wp_raise. intros msg [= <-]. reflexivity.
    + apply wp_nest, rejected_setModelStatus. spec_auto.
  - (* _oneDayAheadPredict *)
    unfold _oneDayAheadPredict. apply wp_nest, wp_bind, wp_gets.
    destruct (_ >? _).
    + apply wp_bind, wp_raise. intros msg [= <-]. reflexivity.
    + apply wp_nest, rejected_setModelStatus. spec_auto.
  - (* _continuePredict *)
    unfold _continuePredict. apply wp_nest, wp_bind, wp_gets.
    destruct (Result.predictStatus _) as [[[base currentDate] forecasts]|].
    + apply rejected_quiet. repeat first [spec_open | progress spec_auto].
    + apply wp_bind, wp_raise. intros msg [= <-]. reflexivity.
  - (* _constructEvaluationForPrediction *)
    destruct featureDict as [featureDict|], date as [date|].
    + apply rejected_quiet. spec_auto.
    + eapply wp_mono; [apply spec_constructEvaluation_row | done |].
      intros e s' [Hrow He] msg ->. by destruct msg.
    + apply rejected_quiet. spec_auto.
    + apply wp_raise. intros msg [= <-]. reflexivity.
  - (* _setModelStatus *)
    unfold _setModelStatus. apply wp_bind, wp_gets. destruct (_ || _).
    + apply wp_raise. intros msg [= <-]. reflexivity.
    + apply rejected_quiet. spec_auto.
  - (* _resetModelStatus *)
    apply rejected_quiet. spec_auto.
  - (* _checkFeatureSize *)
    assert (spec (keeps (fun s => s)) any_exn _checkFeatureSize) as Hkeep
      by (unfold _checkFeatureSize; spec_auto).
    eapply wp_mono; [apply Hkeep | done |].
    intros e s' [-> _] msg _. apply rejected_refl.
Qed.

(** C3, as the code has it: a call to an engine operation that raises one
    of the errors of the engine has written nothing when the error is raised,
    the state being the one before the call, with one exception.  When
    [_constructEvaluationForPrediction] raises the feature error for a
    component, the slices of the components visited before it, each of which
    has an override, are already written: the state then differs from the one
    before the call in the evaluation row of the model and nowhere else. *)
Theorem rejected_call_leaves_state (c : call) (s : state) (msg : message) :
  snd (run c s) = Raise (NameError msg) ->
  rejected msg s (fst (run c s)).
Proof.
  intros Hraise. pose proof (wp_run _ _ _ _ (rejected_wp c s)) as H.
  rewrite Hraise in H. by apply H.
Qed.

(** *** The forecast cursor *)

Lemma oneDayAheadPredict_cursor date featureDict s :
  wp (_oneDayAheadPredict date featureDict) s
     (fun r s' => cursor s' = Some (date, date + 1, [fst r]))
     (fun _ _ => True).
Proof.
  unfold _oneDayAheadPredict. apply wp_bind, wp_gets.
  destruct (_ >? _); [by apply wp_raise |].
  eapply (wp_seq _ _ _ (fun _ _ => True)).
  { eapply wp_mono; [apply (keeps_wp cursor); spec_auto | done | done]. }
  intros _ s1 _.
  eapply (wp_seq _ _ _ (fun _ _ => True)).
  { eapply wp_mono; [apply (keeps_wp cursor); spec_auto | done | done]. }
  intros _ s2 _.
  apply wp_bind, wp_modify_model. apply wp_bind, wp_modify_model.
  apply wp_bind, wp_gets. apply wp_bind, wp_modify. by apply wp_ret.
Qed.

Lemma continuePredict_cursor featureDict s :
  wp (_continuePredict featureDict) s
     (fun r s' =>
        exists base currentDate forecasts,
          cursor s = Some (base, currentDate, forecasts)
          /\ cursor s' = Some (base, currentDate + 1, forecasts ++ [fst r]))
     (fun _ _ => True).
Proof.
  unfold _continuePredict. apply wp_bind, wp_gets.
  destruct (Result.predictStatus (Dlm.result s))
    as [[[base currentDate] forecasts]|] eqn:Hcur; [| by apply wp_raise].
  eapply (wp_seq _ _ _ (fun _ s' => cursor s' = cursor s)).
  { eapply wp_mono; [apply (keeps_wp cursor) | done | done].
    repeat first [spec_open | progress spec_auto]. }
  intros autos s1 Hs1.
  eapply (wp_seq _ _ _ (fun _ s' => cursor s' = cursor s)).
  { eapply wp_mono; [apply (keeps_wp cursor) | | done].
    - repeat first [spec_open | progress spec_auto].
    - simpl. intros _ s' ->. done. }
  clear s1 Hs1. intros fd s1 Hs1.
  eapply (wp_seq _ _ _ (fun _ s' => cursor s' = cursor s)).
  { eapply wp_mono; [apply (keeps_wp cursor) | | done].
    - spec_auto.
    - simpl. intros _ s' ->. done. }
  clear s1 Hs1. intros [] s1 Hs1.
  apply wp_bind, wp_modify_model. apply wp_bind, wp_gets.
  unfold cursor in Hs1. rewrite Hcur in Hs1.
  unfold result_predictStatus.
  apply wp_bind, wp_bind, wp_gets. simpl. rewrite Hs1. apply wp_ret.
  apply wp_bind, wp_modify.
  apply wp_bind, wp_bind, wp_gets. simpl. apply wp_ret.
  apply wp_bind, wp_modify. apply wp_ret.
  exists base, currentDate, forecasts. done.
Qed.

Lemma continueMany_cursor fds s base currentDate forecasts :
  cursor s = Some (base, currentDate, forecasts) ->
  wp (continueMany fds) s
     (fun rs s' =>
        length rs = length fds
        /\ cursor s'
           = Some (base, currentDate + Py.len fds, forecasts ++ (fst <$> rs)))
     (fun _ _ => True).
Proof.
  revert s currentDate forecasts.
  induction fds as [|fd fds IH]; intros s currentDate forecasts Hcur; simpl.
  - apply wp_ret. split; [done |]. rewrite app_nil_r, Hcur.
    by replace (currentDate + Py.len []) with currentDate by (unfold Py.len; simpl; lia).
  - eapply wp_seq; [apply continuePredict_cursor |].
    intros r s1 (b & c & q & Hs & Hs1). rewrite Hcur in Hs. simplify_eq.
    eapply wp_seq; [by apply IH |].
    intros rs s2 [Hlen Hs2]. apply wp_ret. split; [simpl; lia |].
    rewrite Hs2. simpl. rewrite <- app_assoc. simpl.
    do 3 f_equal. unfold Py.len. simpl. lia.
Qed.

Lemma dict_get_keys {V} (d : list (string * V)) k :
  k ∈ Dict.keys d -> exists v, Dict.get d k = Some v /\ (k, v) ∈ d.
Proof.
  unfold Dict.keys. induction d as [|[k' v'] d IH]; simpl.
  - intros H. by apply elem_of_nil in H.
  - intros H. destruct (String.eqb_spec k k') as [-> | Hne].
    + exists v'. split; [done | by left].
    + apply elem_of_cons in H as [? | H]; [done |].
      destruct (IH H) as (v & Hget & Hin). exists v. split; [done | by right].
Qed.

(** Without overrides, the one-day-ahead forecast from a filtered date
    returns. *)
Lemma oneDayAheadPredict_returns date s :
  ledger_ok s ->
  fst (Result.filteredSteps (Dlm.result s)) <= date
    <= snd (Result.filteredSteps (Dlm.result s)) ->
  wp (_oneDayAheadPredict date None) s (fun _ _ => True) no_exn.
Proof.
  intros Hok Hdate. unfold _oneDayAheadPredict. apply wp_bind, wp_gets.
  destruct (Z.gtb_spec date (Dlm.n s - 1)); [destruct Hok as (_ & _ & ?); lia |].
  apply wp_bind, wp_setModelStatus_sized; [done | done |]. intros row.
  unfold _constructEvaluationForPrediction, builder_updateEvaluation.
  apply wp_bind, wp_bind, wp_bind, wp_gets, wp_modify_model, wp_modify_model.
  apply wp_bind, wp_modify_model. apply wp_bind, wp_modify_model.
  apply wp_bind, wp_gets. apply wp_bind, wp_modify. by apply wp_ret.
Qed.

(** Without overrides and without an autoregressive component, a call of
    [_continuePredict] with an active cursor returns. *)
Lemma continuePredict_returns s :
  is_Some (cursor s) ->
  Forall (fun nc => String.eqb (Component.componentType (snd nc)) "autoReg" = false)
    (Builder.automaticComponents (Dlm.builder s)) ->
  wp (_continuePredict None) s (fun _ s' => is_Some (cursor s')) no_exn.
Proof.
  intros [[[base currentDate] forecasts] Hcur] Hauto. unfold cursor in Hcur.
  unfold _continuePredict. apply wp_bind, wp_gets. rewrite Hcur.
  apply wp_bind, wp_gets.
  eapply (wp_seq _ _ _ (fun fd s' => fd = None /\ s' = s)).
  { apply (wp_fold_for (fun fd s' => fd = None /\ s' = s)); [done |].
    intros fd name s' Hname [-> ->]. unfold lagFeatureStep.
    apply wp_bind, wp_gets.
    destruct (dict_get_keys _ _ Hname) as (comp & -> & Hin).
    apply list_elem_of_In in Hin. rewrite List.Forall_forall in Hauto.
    specialize (Hauto _ Hin). simpl in Hauto. rewrite Hauto. by apply wp_ret. }
  intros fd s' [-> ->].
  unfold _constructEvaluationForPrediction, builder_updateEvaluation.
  apply wp_bind, wp_bind, wp_bind, wp_gets, wp_modify_model, wp_modify_model.
  apply wp_bind, wp_modify_model. apply wp_bind, wp_gets.
  unfold result_predictStatus.
  apply wp_bind, wp_bind, wp_gets. simpl. rewrite Hcur. apply wp_ret.
  apply wp_bind, wp_modify.
  apply wp_bind, wp_bind, wp_gets. simpl. apply wp_ret.
  apply wp_bind, wp_modify. apply wp_ret. by eexists.
Qed.

(** C6: after [_oneDayAheadPredict date] and [m] successful calls of
    [_continuePredict], the forecast cursor holds [date] as its base date,
    [date + 1 + m] as its current date and a forecast sequence of length
    [m + 1], made of the forecasts returned in order; each successful call of
    [_continuePredict] moves the current date by exactly 1 and appends exactly
    the forecast it returns.  The calls do succeed: without overrides,
    [_oneDayAheadPredict] returns for every date inside the filtered range, and
    [_continuePredict] returns whenever the cursor is active and no automatic
    component is autoregressive. *)
Theorem forecast_cursor_monotone (s : state) (date : Z)
    (featureDict : option (gmap string (list value)))
    (fds : list (option (gmap string (list value))))
    (r : value * value) (rs : list (value * value)) :
  let s1 := fst (_oneDayAheadPredict date featureDict s) in
  let s2 := fst (continueMany fds s1) in
  snd (_oneDayAheadPredict date featureDict s) = Return r ->
  snd (continueMany fds s1) = Return rs ->
  (exists forecasts,
     cursor s2 = Some (date, date + 1 + Py.len fds, forecasts)
     /\ forecasts = fst r :: (fst <$> rs)
     /\ Py.len forecasts = Py.len fds + 1)
  /\ (forall s fd r',
        snd (_continuePredict fd s) = Return r' ->
        exists base currentDate forecasts,
          cursor s = Some (base, currentDate, forecasts)
          /\ cursor (fst (_continuePredict fd s))
             = Some (base, currentDate + 1, forecasts ++ [fst r']))
  /\ (forall s date,
        ledger_ok s ->
        fst (Result.filteredSteps (Dlm.result s)) <= date
          <= snd (Result.filteredSteps (Dlm.result s)) ->
        exists r', snd (_oneDayAheadPredict date None s) = Return r')
  /\ (forall s,
        is_Some (cursor s) ->
        Forall (fun nc =>
                  String.eqb (Component.componentType (snd nc)) "autoReg" = false)
          (Builder.automaticComponents (Dlm.builder s)) ->
        exists r', snd (_continuePredict None s) = Return r').
Proof.
  intros s1 s2 Hone Hmany. split; [| split; [| split]].
  - pose proof (wp_run _ _ _ _ (oneDayAheadPredict_cursor date featureDict s)) as H1.
    rewrite Hone in H1. fold s1 in H1.
    pose proof (wp_run _ _ _ _
                  (continueMany_cursor fds s1 date (date + 1) [fst r] H1)) as H2.
    rewrite Hmany in H2. fold s2 in H2. destruct H2 as [Hlen H2].
    eexists. split; [exact H2 |]. split; [done |].
    unfold Py.len. simpl. rewrite length_fmap, Hlen. lia.
  - intros s' fd r' Hret.
    pose proof (wp_run _ _ _ _ (continuePredict_cursor fd s')) as H.
    by rewrite Hret in H.
  - intros s' date' Hok Hdate.
    destruct (wp_returns _ _ _ (oneDayAheadPredict_returns date' s' Hok Hdate))
      as (r' & s'' & -> & _). by exists r'.
  - intros s' Hcur Hauto.
    destruct (wp_returns _ _ _ (continuePredict_returns s' Hcur Hauto))
      as (r' & s'' & -> & _). by exists r'.
Qed.

(** *** The lag feature of an autoregressive component *)

(** When the first automatic component is autoregressive and the forecast
    sequence is shorter than its lag order, [_continuePredict] stops on the
    attribute the engine does not have, before any feature is built. *)
Lemma continuePredict_short_history s featureDict base currentDate forecasts
    name comp others :
  cursor s = Some (base, currentDate, forecasts) ->
  Builder.automaticComponents (Dlm.builder s) = (name, comp) :: others ->
  Component.componentType comp = "autoReg" ->
  Py.len forecasts < Component.d comp ->
  _continuePredict featureDict s = (s, Raise (AttributeError "predictStatus")).
Proof.
  unfold cursor. intros Hcur Hauto Htype Hshort.
  assert (wp (_continuePredict featureDict) s (fun _ _ => False)
            (fun e s' => (s', Raise e)
                         = (s, @Raise (value * value) (AttributeError "predictStatus"))))
    as Hwp.
  { unfold _continuePredict. apply wp_bind, wp_gets. rewrite Hcur.
    apply wp_bind, wp_gets. rewrite Hauto. simpl.
    apply wp_bind, wp_bind. unfold lagFeatureStep at 1.
    apply wp_bind, wp_gets. rewrite Hauto. simpl.
    rewrite String.eqb_refl, Htype. simpl.
    apply wp_bind. unfold result_predictStatus at 1. apply wp_bind, wp_gets.
    rewrite Hcur. apply wp_ret. simpl.
    destruct (Z.geb_spec (Py.len forecasts) (Component.d comp)); [lia |].
    apply wp_bind, wp_bind. by apply wp_raise. }
  unfold wp in Hwp. by destruct (_continuePredict featureDict s) as [s' [r|e]].
Qed.


(** *** Growing and shrinking the ledger *)

Lemma records_complete (f : record) : f ∈ records.
Proof. unfold records. destruct f; repeat first [by left | right]. Qed.

Lemma records_NoDup : NoDup records.
Proof.
  unfold records.
  repeat (apply NoDup_cons_2;
          [intros H%list_elem_of_In; simpl in H; intuition discriminate |]).
  apply NoDup_nil_2.
Qed.

(** A loop that rewrites the series it visits, one after the other, each
    from its own content. *)
Lemma series_loop (h : list value -> list value) (body : record -> M unit)
    (ok : list value -> Prop) :
  (forall f s,
     ok (Result.series (Dlm.result s) f) ->
     body f s
     = (Dlm.set_result
          (Result.set_series f (h (Result.series (Dlm.result s) f)) (Dlm.result s))
          s, Return tt)) ->
  forall xs s,
    NoDup xs ->
    (forall f, f ∈ xs -> ok (Result.series (Dlm.result s) f)) ->
    exists s',
      for_ xs body s = (s', Return tt)
      /\ same_but_series s s'
      /\ forall f, Result.series (Dlm.result s') f
                   = if decide (f ∈ xs)
                     then h (Result.series (Dlm.result s) f)
                     else Result.series (Dlm.result s) f.
Proof.
  intros Hbody xs. induction xs as [|x xs IH]; intros s Hdup Hok; cbn [for_].
  - exists s. split; [done |]. split; [by repeat split |].
    intros f. case_decide as Hf; [by apply elem_of_nil in Hf | done].
  - apply list.NoDup_cons in Hdup as [Hx Hdup].
    unfold bind at 1. rewrite Hbody by (apply Hok; by left).
    set (s1 := Dlm.set_result _ s).
    destruct (IH s1 Hdup) as (s' & Hrun & Hsame & Hseries).
    { intros f Hf. subst s1. simpl. case_decide as Hfx; [by subst |].
      apply Hok. by right. }
    exists s'. split; [done |]. split.
    { destruct Hsame as (? & ? & ? & ? & ? & ? & ?). by repeat split. }
    intros f. rewrite Hseries. subst s1. simpl.
    destruct (decide (f = x)) as [-> | Hne].
    + rewrite decide_False by done. rewrite decide_True by (by left). done.
    + destruct (decide (f ∈ xs)) as [Hin | Hnin].
      * rewrite decide_True by (by right). done.
      * rewrite decide_False; [done |]. rewrite elem_of_cons. tauto.
Qed.

(** [_appendResult k] always returns; it puts [k] unset slots at the end of
    each of the fourteen series, once, and changes nothing else (the length
    [n] of the engine included). *)
Theorem appendResult_extends (s : state) (k : Z) :
  exists s',
    _appendResult k s = (s', Return tt)
    /\ same_but_series s s'
    /\ forall f, Result.series (Dlm.result s') f
                 = Result.series (Dlm.result s) f ++ replicate (Z.to_nat k) PyNone.
Proof.
  destruct (series_loop (fun l => l ++ replicate (Z.to_nat k) PyNone)
              (fun variable =>
                 l <- gets (fun s => Result.series (Dlm.result s) variable) ;;
                 modify (fun s =>
                   Dlm.set_result
                     (Result.set_series variable (l ++ replicate (Z.to_nat k) PyNone)
                        (Dlm.result s)) s))
              (fun _ => True) ltac:(done) records s records_NoDup ltac:(done))
    as (s' & Hrun & Hsame & Hseries).
  exists s'. split; [exact Hrun |]. split; [done |].
  intros f. rewrite Hseries. by rewrite decide_True by apply records_complete.
Qed.

(** [_popout date] for a date among the indices of a ledger with series of
    equal length: it returns, the entry at [date] is gone from each of the
    fourteen series, and nothing else changes. *)
Theorem popout_removes (s : state) (date : Z) :
  ledger_sized s ->
  0 <= date < Dlm.n s ->
  exists s',
    _popout date s = (s', Return tt)
    /\ same_but_series s s'
    /\ forall f, Result.series (Dlm.result s') f
                 = delete (Z.to_nat date) (Result.series (Dlm.result s) f).
Proof.
  intros Hs Hdate.
  destruct (series_loop (delete (Z.to_nat date))
              (fun variable =>
                 l <- gets (fun s => Result.series (Dlm.result s) variable) ;;
                 match Py.index l date with
                 | Some k =>
                     modify (fun s =>
                       Dlm.set_result
                         (Result.set_series variable (delete k l) (Dlm.result s)) s)
                 | None => raise IndexError
                 end)
              (fun l => Py.len l = Dlm.n s)) with records s
    as (s' & Hrun & Hsame & Hseries).
  - intros f s1 Hlen. unfold bind, gets. by rewrite index_in_range by lia.
  - apply records_NoDup.
  - intros f _. apply Hs.
  - exists s'. split; [exact Hrun |]. split; [done |].
    intros f. rewrite Hseries. by rewrite decide_True by apply records_complete.
Qed.

(** [_popout date] for a date that is no index of the series raises
    [IndexError] on the first series and leaves the ledger as it was. *)
Theorem popout_out_of_range (s : state) (date : Z) :
  ledger_sized s ->
  date < - Dlm.n s \/ Dlm.n s <= date ->
  _popout date s = (s, Raise IndexError).
Proof.
  intros Hs Hdate. unfold _popout, records. simpl.
  unfold bind, gets. unfold Py.index. rewrite (Hs filteredObs).
  destruct (Z.leb_spec 0 date).
  - destruct (Z.ltb_spec date (Dlm.n s)); [lia | done].
  - destruct (Z.leb_spec (- Dlm.n s) date); [lia | done].
Qed.

(** Appending one slot and popping the last index ([-1]) gives every series
    back as it was. *)
Theorem append_popout_roundtrip (s : state) :
  ledger_sized s ->
  exists s1 s2,
    _appendResult 1 s = (s1, Return tt)
    /\ _popout (-1) s1 = (s2, Return tt)
    /\ same_but_series s s2
    /\ forall f, Result.series (Dlm.result s2) f = Result.series (Dlm.result s) f.
Proof.
  intros Hs. destruct (appendResult_extends s 1) as (s1 & Hrun1 & Hsame1 & Hser1).
  exists s1.
  destruct (series_loop (fun l => delete (length l - 1)%nat l)
              (fun variable =>
                 l <- gets (fun s => Result.series (Dlm.result s) variable) ;;
                 match Py.index l (-1) with
                 | Some k =>
                     modify (fun s =>
                       Dlm.set_result
                         (Result.set_series variable (delete k l) (Dlm.result s)) s)
                 | None => raise IndexError
                 end)
              (fun l => (0 < length l)%nat)) with records s1
    as (s2 & Hrun2 & Hsame2 & Hser2).
  - intros f s' Hlen. unfold bind, gets, Py.index, Py.len. simpl.
    destruct (Z.leb_spec (- Z.of_nat (length (Result.series (Dlm.result s') f))) (-1));
      [| lia].
    by replace (Z.to_nat (Z.of_nat (length (Result.series (Dlm.result s') f)) + -1))
      with (length (Result.series (Dlm.result s') f) - 1)%nat by lia.
  - apply records_NoDup.
  - intros f _. rewrite Hser1, length_app. simpl. lia.
  - exists s2. split; [done |]. split; [exact Hrun2 |]. split.
    + destruct Hsame1 as (? & ? & ? & ? & ? & ? & ?).
      destruct Hsame2 as (? & ? & ? & ? & ? & ? & ?).
      repeat split; congruence.
    + intros f. rewrite Hser2, decide_True by apply records_complete.
      rewrite Hser1, length_app.
      change (replicate (Z.to_nat 1) PyNone) with [@PyNone num]. simpl.
      replace (length (Result.series (Dlm.result s) f) + 1 - 1)%nat
        with (length (Result.series (Dlm.result s) f)) by lia.
      by rewrite delete_middle, app_nil_r.
Qed.


(** *** Which entries of the ledger a method may write *)

Lemma spec_fold_for_in (R : relation state) `{!PreOrder R} (E : exn -> Prop)
    {X L} (xs : list X) (local : L) (body : L -> X -> M L) :
  (forall l x, x ∈ xs -> spec R E (body l x)) ->
  spec R E (fold_for xs local body).
Proof.
  revert local. induction xs as [|x xs IH]; intros l Hbody; simpl.
  - apply spec_ret; apply _.
  - apply spec_bind; [apply _ | apply Hbody; by left |].
    intros l'. apply IH. intros l'' y Hy. apply Hbody. by right.
Qed.

Lemma spec_for_in (R : relation state) `{!PreOrder R} (E : exn -> Prop)
    {X} (xs : list X) (body : X -> M unit) :
  (forall x, x ∈ xs -> spec R E (body x)) ->
  spec R E (for_ xs body).
Proof.
  induction xs as [|x xs IH]; intros Hbody; simpl.
  - apply spec_ret; apply _.
  - apply spec_bind; [apply _ | apply Hbody; by left |].
    intros _. apply IH. intros y Hy. apply Hbody. by right.
Qed.

Lemma setitem_nonneg {A} (l : list A) i v l' :
  0 <= i -> Py.setitem l i v = Return l' -> l' = <[Z.to_nat i := v]> l.
Proof.
  intros Hi. unfold Py.setitem, Py.index.
  destruct (Z.leb_spec 0 i); [| lia].
  destruct (i <? Py.len l); by intros [= <-].
Qed.

(** For a relation [R] that writes to the builder and writes to the entries
    in [W] do not break. *)
Section Writes.

Context (R : relation state) `{!PreOrder R} (E : exn -> Prop).
Variable W : record -> Z -> Prop.
Hypothesis builder_frame : forall s b, R s (Dlm.set_builder b s).
Hypothesis write_frame :
  forall s f i v l,
    W f i ->
    Py.setitem (Result.series (Dlm.result s) f) i v = Return l ->
    R s (Dlm.set_result (Result.set_series f l (Dlm.result s)) s).
Hypothesis other_exn : forall e, not_NameError e -> E e.

Lemma spec_result_set_in f i v : W f i -> spec R E (result_set f i v).
Proof.
  intros Hw s. apply wp_result_set.
  destruct (Py.setitem _ i v) as [l | e] eqn:Hset.
  - by eapply write_frame.
  - split; [done |]. apply other_exn.
    unfold Py.setitem in Hset. destruct (Py.index _ i); by simplify_eq.
Qed.

Lemma spec_store_in f i x : W f i -> spec R E (store f i x).
Proof.
  intros Hw. unfold store. apply spec_bind; [apply _ | by apply spec_gets |].
  intros m. by apply spec_result_set_in.
Qed.

Lemma spec_copy_forward step :
  (forall f, is_forward f = true -> W f step) ->
  spec R E (_copy step "forwardFilter").
Proof.
  intros Hw. unfold _copy. simpl.
  repeat (apply spec_bind; [apply _ | by apply spec_store_in, Hw | intros _]).
  by apply spec_store_in, Hw.
Qed.

Lemma spec_copy_smoother step :
  (forall f, is_smoothed f = true -> W f step) ->
  spec R E (_copy step "backwardSmoother").
Proof.
  intros Hw. unfold _copy. simpl.
  repeat (apply spec_bind; [apply _ | by apply spec_store_in, Hw | intros _]).
  by apply spec_store_in, Hw.
Qed.

Lemma spec_forwardStep_in save renew last step :
  (save_here save step = true -> forall f, is_forward f = true -> W f step) ->
  spec R E (forwardStep save renew last step).
Proof.
  intros Hw. unfold forwardStep.
  spec_auto. by apply spec_copy_forward, Hw.
Qed.

Lemma spec_backwardStep_in day :
  (forall f, is_smoothed f = true -> W f day) ->
  spec R E (backwardStep day).
Proof. intros Hw. unfold backwardStep. spec_auto. by apply spec_copy_smoother. Qed.

End Writes.


#[local] Instance writes_only_preorder W : PreOrder (writes_only W).
Proof.
  split.
  - by intros s.
  - intros s1 s2 s3 [Hl1 Hs1] [Hl2 Hs2]. split.
    + intros f. by rewrite Hl2.
    + intros f i Hi Hw. rewrite Hs2 by done. by apply Hs1.
Qed.

#[local] Instance smoothed_only_preorder : PreOrder smoothed_only.
Proof.
  split.
  - by intros s.
  - intros s1 s2 s3 (Ha & Ha1 & Ha2 & Ha3 & Ha4 & Ha5)
      (Hb & Hb1 & Hb2 & Hb3 & Hb4 & Hb5).
    repeat split; try congruence. intros f Hf. rewrite Hb by done. by apply Ha.
Qed.

Lemma writes_only_write (W : record -> Z -> Prop) s f i v l :
  W f i -> 0 <= i ->
  Py.setitem (Result.series (Dlm.result s) f) i v = Return l ->
  writes_only W s (Dlm.set_result (Result.set_series f l (Dlm.result s)) s).
Proof.
  intros Hw Hi Hset. apply setitem_nonneg in Hset as ->; [| done]. split.
  - intros g. simpl. case_decide; [subst; apply len_insert | done].
  - intros g j Hj Hnw. unfold slot. simpl. case_decide as Hg; [| done].
    subst g. apply list_lookup_insert_ne. intros Hij.
    apply Hnw. by replace j with i by lia.
Qed.

(** [_forwardFilter] from a [start] that is not negative, whatever its
    outcome: every series keeps its length, and the only entries that can
    differ afterwards are those of the ten forward series at the dates of
    [[start, end]] that [save] selects.  The smoothed series, the dates outside
    the range and, for a [save] that is a date, every other date are as they
    were. *)
Theorem forwardFilter_writes_within (s : state) (start : Z) (end_ : option Z)
    (save : save_arg) (ForgetPrevious renew : bool) :
  let last := match end_ with Some e => e | None => Dlm.n s - 1 end in
  0 <= start ->
  writes_only
    (fun f i => is_forward f = true /\ save_here save i = true /\ start <= i <= last)
    s (fst (_forwardFilter start end_ save ForgetPrevious renew s)).
Proof.
  intros last Hstart.
  set (W := fun f i => is_forward f = true /\ save_here save i = true
                       /\ start <= i <= last).
  assert (wp (_forwardFilter start end_ save ForgetPrevious renew) s
            (fun _ s' => writes_only W s s') (fun _ s' => writes_only W s s'))
    as Hwp.
  { unfold _forwardFilter. apply wp_bind, wp_gets. fold last.
    destruct (_ >? _); [by apply wp_ret |].
    match goal with
    | |- wp ?rest _ _ _ => assert (spec (writes_only W) any_exn rest) as Hspec
    end.
    { apply spec_bind; [apply _ | spec_auto |].
      intros _. apply spec_bind; [apply _ | | intros; apply spec_ret; apply _].
      apply spec_fold_for_in; [apply _ |]. intros l step Hstep%elem_of_range.
      apply (spec_forwardStep_in (writes_only W) any_exn W); [done | | done |].
      - intros s1 f i v l1 Hw Hset.
        apply (writes_only_write W s1 f i v l1); [done | | done].
        destruct Hw as (_ & _ & ?). lia.
      - intros Hsave f Hf. repeat split; [done | done | lia | lia]. }
    eapply wp_mono; [apply Hspec | done | by intros e s' [? _]]. }
  apply wp_run in Hwp. by destruct (snd _).
Qed.

(** [_forwardFilter] with a [save] that is a string other than ['all']
    (['end'], which the comment above the method offers, is one) leaves the
    whole ledger as it was, whatever the other arguments and the outcome:
    a string is compared with the date and never equals it. *)
Theorem forwardFilter_save_other_string (s : state) (start : Z)
    (end_ : option Z) (save : string) (ForgetPrevious renew : bool) :
  save <> "all" ->
  Dlm.result (fst (_forwardFilter start end_ (SaveStr save) ForgetPrevious renew s))
  = Dlm.result s.
Proof.
  intros Hsave.
  assert (spec (keeps Dlm.result) any_exn
            (_forwardFilter start end_ (SaveStr save) ForgetPrevious renew)) as Hspec.
  { unfold _forwardFilter. spec_auto.
    apply (spec_forwardStep_in (keeps Dlm.result) any_exn (fun _ _ => False));
      [done | done | done |].
    simpl. destruct (String.eqb_spec save "all"); done. }
  pose proof (wp_run _ _ _ _ (Hspec s)) as H.
  by destruct (snd _); [| destruct H].
Qed.

(** [_backwardSmoother], whatever its arguments and its outcome, changes
    no series but the four smoothed ones, and neither [filteredSteps] nor
    [smoothedSteps] (the smoothed range is not recorded), nor the forecast
    cursor, nor the data. *)
Theorem backwardSmoother_writes_smoothed_only (s : state)
    (start days : option Z) (ignoreFuture : bool) :
  smoothed_only s (fst (_backwardSmoother start days ignoreFuture s)).
Proof.
  assert (forall s f i v l,
            is_smoothed f = true ->
            Py.setitem (Result.series (Dlm.result s) f) i v = Return l ->
            smoothed_only s
              (Dlm.set_result (Result.set_series f l (Dlm.result s)) s)) as Hwrite.
  { intros s1 f i v l Hf _. repeat split. intros g Hg. simpl.
    case_decide; [congruence | done]. }
  assert (spec smoothed_only any_exn (_backwardSmoother start days ignoreFuture))
    as Hspec.
  { unfold _backwardSmoother.
    repeat first
      [ progress spec_auto
      | apply (spec_result_set_in smoothed_only any_exn
                 (fun f _ => is_smoothed f = true)); [exact Hwrite | done | done]
      | apply (spec_backwardStep_in smoothed_only any_exn
                 (fun f _ => is_smoothed f = true)); [done | exact Hwrite | done | done] ]. }
  pose proof (wp_run _ _ _ _ (Hspec s)) as H.
  by destruct (snd _); [| destruct H].
Qed.

(** No operation but the filter and the smoother writes the ledger's
    series, [filteredSteps], [smoothedSteps], the data or its length: setting
    or resetting the model status and the three forecasts leave all of them
    as they were, whatever the outcome. *)
Theorem forecasts_keep_the_record (c : call) (s : state) :
  reads_ledger c = true ->
  recorded (fst (run c s)) = recorded s.
Proof.
  intros Hc.
  assert (spec (keeps recorded) any_exn (run c)) as Hspec.
  { destruct c as [| | | | | featureDict date | | |]; try discriminate; cbn [run].
    - unfold _predictInSample. spec_auto.
    - unfold _oneDayAheadPredict. spec_auto.
    - unfold _continuePredict. repeat first [spec_open | progress spec_auto].
    - destruct date as [date |]; [spec_auto |].
      destruct featureDict as [featureDict |]; [| simpl; spec_auto].
      intros s0. eapply wp_mono; [apply spec_constructEvaluation_row | |]; simpl.
      + by intros _ s' [row ->].
      + by intros e s' [[row ->] _].
    - spec_auto.
    - spec_auto.
    - unfold _checkFeatureSize. spec_auto. }
  pose proof (wp_run _ _ _ _ (Hspec s)) as H.
  by destruct (snd _); [| destruct H].
Qed.


(** *** When a call is rejected *)

Lemma agrees_quiet {A} (m : M A) s (o : option message) :
  spec anything not_NameError m -> o = None ->
  wp m s (fun _ _ => o = None) (fun e _ => agrees o e).
Proof.
  intros Hm ->. eapply wp_mono; [apply Hm | done |].
  intros e s' [_ He]. by destruct e.
Qed.

Lemma agrees_setModelStatus {A} date (k : M A) s :
  spec anything not_NameError k ->
  wp (_setModelStatus date ;; k) s
     (fun _ _ => unfiltered date s = None)
     (fun e _ => agrees (unfiltered date s) e).
Proof.
  intros Hk. unfold _setModelStatus, unfiltered.
  apply wp_nest, wp_bind, wp_gets. simpl.
  destruct (_ || _).
  - by apply wp_bind, wp_raise.
  - apply agrees_quiet; [| done]. spec_auto. exact Hk.
Qed.

Lemma rejection_wp (c : call) (s : state) :
  tabled c = true ->
  wp (run c) s (fun _ _ => rejection c s = None)
     (fun e _ => agrees (rejection c s) e).
Proof.
  intros Hc. destruct c as [| | | | | featureDict date | | |];
    try discriminate; cbn [run rejection].
  - unfold _forwardFilter. apply wp_bind, wp_gets.
    destruct (_ >? _); [by apply wp_ret |].
    destruct (_ || _).
    + apply agrees_quiet; [spec_auto | done].
    + apply wp_nest, wp_bind, wp_gets. destruct (_ >? _).
      * by apply wp_bind, wp_raise.
      * apply agrees_setModelStatus. spec_auto.
  - unfold _backwardSmoother. apply wp_bind, wp_gets. apply wp_bind, wp_gets.
    destruct (_ <? _).
    + by apply wp_raise.
    + apply agrees_quiet; [spec_auto | done].
  - unfold _predictInSample. apply wp_nest, wp_bind, wp_gets.
    destruct (_ >? _).
    + by apply wp_bind, wp_raise.
    + apply wp_nest, agrees_setModelStatus. spec_auto.
  - unfold _oneDayAheadPredict. apply wp_nest, wp_bind, wp_gets.
    destruct (_ >? _).
    + by apply wp_bind, wp_raise.
    + apply wp_nest, agrees_setModelStatus. spec_auto.
  - unfold _continuePredict. apply wp_nest, wp_bind, wp_gets.
    destruct (Result.predictStatus _) as [[[base currentDate] forecasts]|].
    + apply agrees_quiet; [| done]. repeat first [spec_open | progress spec_auto].
    + by apply wp_bind, wp_raise.
  - destruct featureDict as [featureDict |], date as [date |]; try discriminate.
    + apply agrees_quiet; [spec_auto | done].
    + apply agrees_quiet; [spec_auto | done].
    + by apply wp_raise.
  - unfold _setModelStatus, unfiltered. apply wp_bind, wp_gets. simpl.
    destruct (_ || _).
    + by apply wp_raise.
    + apply agrees_quiet; [spec_auto | done].
  - apply agrees_quiet; [spec_auto | done].
Qed.

(** The complete list of rejections.  For every operation but the two
    that raise from inside a loop over the components, the call raises the
    error [msg] of the engine exactly when [msg] is the first failing check of
    the method: a gap or an unfiltered date before [start] for the filter (and
    only when [start <= end], [start] is not 0 and [ForgetPrevious] is off),
    an unfiltered [start] for the smoother, a window that reaches [n] or an
    unfiltered date for the in-sample forecast, a date past [n - 1] or
    unfiltered for the one-day-ahead forecast, no cursor for
    [_continuePredict], neither features nor date for the evaluation row, an
    unfiltered date for [_setModelStatus]; [_resetModelStatus] raises none. *)
Theorem rejection_table (c : call) (s : state) (msg : message) :
  tabled c = true ->
  snd (run c s) = Raise (NameError msg) <-> rejection c s = Some msg.
Proof.
  intros Hc. pose proof (wp_run _ _ _ _ (rejection_wp c s Hc)) as H.
  destruct (snd (run c s)) as [[] | e].
  - rewrite H. split; discriminate.
  - destruct e; simpl in H; rewrite H; split; try discriminate; congruence.
Qed.


(** *** Saving the model and reading it back *)

Lemma copy_inv_store s step saved s1 f x :
  0 <= step < Dlm.n s ->
  copy_inv s step saved s1 ->
  Forall (fun fx => fst fx <> f) saved ->
  wp (store f step x) s1 (fun _ => copy_inv s step ((f, x) :: saved)) no_exn.
Proof.
  intros Hstep (Hb & Hd & Hn & Hs & Hsaved) Hfresh.
  apply wp_store_sized; [done | lia |].
  repeat split; simpl; [done | done | done | |].
  - intros g. simpl. case_decide; [subst; rewrite len_insert |]; apply Hs.
  - intros fx Hfx. unfold slot, Dlm.model. simpl. rewrite Hb.
    apply elem_of_cons in Hfx as [-> | Hfx]; simpl.
    + rewrite decide_True by done. apply list_lookup_insert_eq.
      specialize (Hs f). unfold Py.len in Hs. lia.
    + rewrite decide_False.
      * by apply Hsaved.
      * rewrite List.Forall_forall in Hfresh. apply Hfresh. by apply list_elem_of_In.
Qed.

Lemma copy_forward_saves s step :
  ledger_sized s -> 0 <= step < Dlm.n s ->
  wp (_copy step "forwardFilter") s
     (fun _ s1 =>
        Dlm.builder s1 = Dlm.builder s /\ Dlm.data s1 = Dlm.data s
        /\ Dlm.n s1 = Dlm.n s /\ ledger_sized s1
        /\ Forall (fun fx => slot (fst fx) step s1 = Some (snd fx (Dlm.model s)))
             tracked)
     no_exn.
Proof.
  intros Hs Hstep.
  assert (exists s1 saved, s1 = s /\ saved = @nil (record * (Model.t num -> value))
                           /\ copy_inv s step saved s1)
    as (s1 & saved & Hs1 & Hsaved & HJ).
  { exists s, []. repeat split; [done |]. intros fx Hfx. by apply elem_of_nil in Hfx. }
  rewrite <- Hs1 at 1. clear Hs1. unfold _copy. simpl.
  do 9 (eapply wp_seq;
        [ apply (copy_inv_store s step saved);
          [done | exact HJ | subst saved; repeat constructor; discriminate]
        | let saved' := fresh "saved" in
          let Hsaved' := fresh "Hsaved" in
          clear s1 HJ; intros [] s1 HJ;
          match type of HJ with
          | copy_inv _ _ ?l _ =>
              remember l as saved' eqn:Hsaved'; rewrite Hsaved in Hsaved';
              clear Hsaved saved; rename saved' into saved;
              rename Hsaved' into Hsaved
          end ]).
  eapply wp_mono;
    [ apply (copy_inv_store s step saved);
      [done | exact HJ | subst saved; repeat constructor; discriminate]
    | | done ].
  subst saved. intros [] s2 (Hb & Hd & Hn & Hs2 & Hslots).
  repeat split; [done | done | done | done |].
  unfold tracked.
  repeat (apply List.Forall_cons; [apply Hslots; repeat first [by left | right] |]).
  apply List.Forall_nil.
Qed.

Lemma restored_same s1 step (m : Model.t num) :
  Dlm.model s1 = m ->
  Forall (fun fx => slot (fst fx) step s1 = Some (snd fx m)) tracked ->
  restored s1 step = m.
Proof.
  intros Hm Htracked. unfold tracked in Htracked.
  repeat match goal with
         | H : Forall _ (_ :: _) |- _ =>
             apply list.Forall_cons in H as [? H]
         end.
  simpl in *. unfold restored, snapshot.
  repeat match goal with H : slot _ _ _ = Some _ |- _ => rewrite H; clear H end.
  rewrite Hm. simpl. by destruct m as [? ? ? ? ? ? ? ? []].
Qed.

(** A date saved is a date restored: on a ledger of equal-length series and
    for a date among its indices, [_copy] for the forward filter followed by
    [_reverseCopy] at the same date both return, and the builder, its model
    included, is exactly what it was before; the second call does not touch
    the ledger. *)
Theorem copy_reverseCopy_roundtrip (s : state) (step : Z) :
  ledger_sized s ->
  0 <= step < Dlm.n s ->
  exists s1 s2,
    _copy step "forwardFilter" s = (s1, Return tt)
    /\ _reverseCopy step s1 = (s2, Return tt)
    /\ Dlm.builder s2 = Dlm.builder s
    /\ Dlm.result s2 = Dlm.result s1.
Proof.
  intros Hs Hstep.
  destruct (wp_returns _ _ _ (copy_forward_saves s step Hs Hstep))
    as ([] & s1 & Hrun & Hb & Hd & Hn & Hs1 & Htracked).
  exists s1, (Dlm.set_model (restored s1 step) s1).
  split; [done |]. split; [apply reverseCopy_restores; [done | lia] |].
  split; [| done].
  rewrite (restored_same s1 step (Dlm.model s)); [| by unfold Dlm.model; rewrite Hb | done].
  unfold Dlm.set_model, Dlm.model. simpl. rewrite Hb.
  by destruct (Dlm.builder s).
Qed.


(** *** What the forward filter leaves in the ledger *)

#[local] Instance sized_kept_preorder : PreOrder sized_kept.
Proof.
  split.
  - by intros s.
  - intros s1 s2 s3 (Hn1 & Hd1 & Hl1) (Hn2 & Hd2 & Hl2).
    repeat split; [congruence | congruence |]. intros f. by rewrite Hl2.
Qed.

Lemma setitem_len {A} (l : list A) i v l' :
  Py.setitem l i v = Return l' -> Py.len l' = Py.len l.
Proof.
  unfold Py.setitem. destruct (Py.index l i); [| done].
  intros [= <-]. apply len_insert.
Qed.

Lemma sized_kept_write s f i v l :
  Py.setitem (Result.series (Dlm.result s) f) i v = Return l ->
  sized_kept s (Dlm.set_result (Result.set_series f l (Dlm.result s)) s).
Proof.
  intros Hset. repeat split. intros g. simpl.
  case_decide; [subst; by eapply setitem_len | done].
Qed.

Lemma spec_forwardStep_sized save renew last step :
  spec sized_kept any_exn (forwardStep save renew last step).
Proof.
  apply (spec_forwardStep_in sized_kept any_exn (fun _ _ => True));
    [done | | done | done].
  intros s f i v l _. apply sized_kept_write.
Qed.

Lemma fold_for_snoc {X L} (xs : list X) (x : X) (local : L) (body : L -> X -> M L) s :
  fold_for (xs ++ [x]) local body s
  = (local' <- fold_for xs local body ;; body local' x) s.
Proof.
  revert local s. induction xs as [|y xs IH]; intros l s; simpl.
  - unfold bind, ret. by destruct (body l x s) as [s' [l' | e]].
  - unfold bind. destruct (body l y s) as [s' [l' | e]]; [| done].
    rewrite IH. reflexivity.
Qed.

Lemma range_snoc a b : a <= b -> Py.range a (b + 1) = Py.range a b ++ [b].
Proof.
  intros Hab. unfold Py.range.
  replace (Z.to_nat (b + 1 - a)) with (Z.to_nat (b - a) + 1)%nat by lia.
  rewrite seq_app, fmap_app. simpl. do 2 f_equal. lia.
Qed.

Lemma sized_kept_sized s s' :
  sized_kept s s' -> ledger_sized s -> ledger_sized s'.
Proof. intros (Hn & _ & Hl) Hs f. by rewrite Hl, Hn. Qed.

Lemma spec_from (R : relation state) `{!PreOrder R} {A} (m : M A) s0 s :
  spec R any_exn m -> R s0 s ->
  wp m s (fun _ s' => R s0 s') (fun _ _ => True).
Proof.
  intros Hm Hs. eapply wp_mono; [apply Hm | | done].
  simpl. intros _ s' Hs'. by trans s.
Qed.

(** The last date filtered is in the ledger as the model stands.  When
    [_forwardFilter] returns after a run over [[start, end]] that ends among
    the indices of the series and saves its last date ([save] is ['all'] or
    that date), every tracked field of the model it leaves is the entry of its
    series at [end]: [_reverseCopy] at [end] would give the model back. *)
Theorem forwardFilter_records_last (s s' : state) (start : Z) (end_ : option Z)
    (save : save_arg) (ForgetPrevious renew : bool) :
  let last := match end_ with Some e => e | None => Dlm.n s - 1 end in
  ledger_sized s ->
  start <= last ->
  0 <= last < Dlm.n s ->
  save_here save last = true ->
  _forwardFilter start end_ save ForgetPrevious renew s = (s', Return tt) ->
  Forall (fun fx => slot (fst fx) last s' = Some (snd fx (Dlm.model s'))) tracked.
Proof.
  intros last Hs Hle Hlast Hsave Hrun.
  set (Q := fun s' : state =>
              Forall (fun fx => slot (fst fx) last s' = Some (snd fx (Dlm.model s')))
                tracked).
  assert (wp (_forwardFilter start end_ save ForgetPrevious renew) s
            (fun _ => Q) (fun _ _ => True)) as Hwp.
  { unfold _forwardFilter. apply wp_bind, wp_gets. fold last.
    destruct (Z.gtb_spec start last); [lia |].
    apply (wp_seq _ _ _ (fun _ s1 => sized_kept s s1)).
    { apply (spec_from sized_kept); [spec_auto | done]. }
    intros _ s1 Hs1. apply wp_bind. rewrite range_snoc by done.
    unfold wp at 1. rewrite fold_for_snoc. fold (wp (A := Z)).
    change (wp (l <- fold_for (Py.range start last) start (forwardStep save renew) ;;
                forwardStep save renew l last) s1
              (fun _ s2 => wp (ret tt) s2 (fun _ => Q) (fun _ _ => True))
              (fun _ _ => True)).
    apply (wp_seq _ _ _ (fun _ s2 => sized_kept s s2)).
    { apply (spec_from sized_kept); [| done].
      apply (spec_fold_for sized_kept any_exn). intros; apply spec_forwardStep_sized. }
    clear s1 Hs1. intros l s1 Hs1. unfold forwardStep.
    apply (wp_seq _ _ _ (fun _ s2 => sized_kept s s2)).
    { apply (spec_from sized_kept); [spec_auto | done]. }
    clear s1 Hs1. intros [] s1 Hs1. apply wp_bind, wp_gets.
    apply (wp_seq _ _ _ (fun _ s2 => sized_kept s s2)).
    { apply (spec_from sized_kept); [spec_auto | done]. }
    clear s1 Hs1. intros l' s1 Hs1.
    apply (wp_seq _ _ _ (fun _ s2 => sized_kept s s2)).
    { apply (spec_from sized_kept); [spec_auto | done]. }
    clear s1 Hs1. intros [] s1 Hs1. rewrite Hsave.
    apply wp_bind.
    eapply wp_mono; [apply (copy_forward_saves s1 last) | | done].
    - by eapply sized_kept_sized.
    - destruct Hs1 as (-> & _). done.
    - intros [] s2 (Hb & _ & _ & _ & Hslots). apply wp_ret, wp_ret.
      unfold Q. unfold Dlm.model in *. by rewrite Hb. }
  unfold wp in Hwp. by rewrite Hrun in Hwp.
Qed.


Lemma resetModelStatus_sized s s1 :
  sized_as s s1 -> wp _resetModelStatus s1 (fun _ => sized_as s) no_exn.
Proof.
  intros HI. unfold _resetModelStatus. apply wp_bind, wp_gets.
  do 4 apply wp_bind, wp_modify_model. by apply wp_modify_model.
Qed.

Lemma filterStep_sized s s1 t :
  data_sized s -> sized_as s s1 -> 0 <= t < Dlm.n s ->
  wp (filterStep t) s1 (fun _ => sized_as s) no_exn.
Proof.
  intros Hdata (Hn & Hd & Hs1) Ht. unfold filterStep, data_get.
  apply wp_bind, wp_bind, wp_gets, wp_lift.
  destruct (getitem_in_range (Dlm.data s1) t) as (v & _ & ->).
  { rewrite Hd. unfold data_sized in Hdata. lia. }
  by apply wp_modify_model.
Qed.

Lemma forwardStep_sized s s1 save last step :
  data_sized s -> sized_as s s1 -> 0 <= step < Dlm.n s ->
  wp (forwardStep save false last step) s1 (fun _ => sized_as s) no_exn.
Proof.
  intros Hdata HI Hstep. unfold forwardStep.
  apply (wp_seq _ _ _ (fun _ => sized_as s)); [by apply wp_refreshEvaluation |].
  clear s1 HI. intros [] s1 HI. apply wp_bind, wp_gets. simpl.
  apply wp_bind, wp_ret.
  apply (wp_seq _ _ _ (fun _ => sized_as s)); [by apply filterStep_sized |].
  clear s1 HI. intros [] s1 HI.
  apply (wp_seq _ _ _ (fun _ => sized_as s)); [| intros; by apply wp_ret].
  destruct (save_here save step); [| by apply wp_ret].
  destruct HI as (Hn & Hd & Hs1).
  eapply wp_mono; [apply (copy_forward_saves s1 step); [done | lia] | | done].
  intros [] s2 (_ & Hd2 & Hn2 & Hs2 & _). repeat split; [congruence | congruence | done].
Qed.

(** A run of the forward filter from the prior returns.  With [renew]
    off, [start] at 0 or [ForgetPrevious] set, a [start] that is not negative
    and an [end] below [n], on an engine whose data and series have the
    length [n], [_forwardFilter] raises nothing, whatever [save]; the data
    and the sizes are as before. *)
Theorem forwardFilter_restart_returns (s : state) (start : Z) (end_ : option Z)
    (save : save_arg) (ForgetPrevious : bool) :
  let last := match end_ with Some e => e | None => Dlm.n s - 1 end in
  ledger_sized s ->
  data_sized s ->
  0 <= start ->
  last < Dlm.n s ->
  start = 0 \/ ForgetPrevious = true ->
  exists s',
    _forwardFilter start end_ save ForgetPrevious false s = (s', Return tt)
    /\ sized_as s s'.
Proof.
  intros last Hs Hdata Hstart Hlast Hrestart.
  assert (wp (_forwardFilter start end_ save ForgetPrevious false) s
            (fun _ => sized_as s) no_exn) as Hwp.
  { unfold _forwardFilter. apply wp_bind, wp_gets. fold last.
    destruct (_ >? _); [by apply wp_ret |].
    assert ((start =? 0) || ForgetPrevious = true) as ->.
    { destruct Hrestart as [-> | ->]; [done | apply orb_true_r]. }
    apply (wp_seq _ _ _ (fun _ => sized_as s)); [by apply resetModelStatus_sized |].
    intros [] s1 HI.
    apply (wp_seq _ _ _ (fun _ => sized_as s)); [| intros; by apply wp_ret].
    apply (wp_fold_for (fun _ => sized_as s)); [done |].
    intros l step s2 Hstep%elem_of_range HI2.
    apply forwardStep_sized; [done | done | lia]. }
  apply wp_returns in Hwp as ([] & s' & Hrun & HI). by exists s'.
Qed.


(** *** What the caller has to do *)

(** The filter alone makes no date restorable.  After [_initialize] and a
    run of [_forwardFilter], whatever its arguments, [filteredSteps] is still
    [[0, -1]]: [_setModelStatus] raises the sequencing error for every date,
    and so does [_backwardSmoother] for every start from 0 on, until the
    caller sets [filteredSteps] itself. *)
Theorem filter_alone_restores_nothing (data : list value) (b : Builder.t num)
    (start : Z) (end_ : option Z) (save : save_arg)
    (ForgetPrevious renew : bool) :
  let s1 :=
    fst (_forwardFilter start end_ save ForgetPrevious renew (_initialize data b)) in
  (forall date,
     _setModelStatus date s1 = (s1, Raise (NameError MsgDateNotFiltered)))
  /\ (forall st days ignoreFuture,
        0 <= st ->
        _backwardSmoother (Some st) days ignoreFuture s1
        = (s1, Raise (NameError MsgLastDayNotFiltered))).
Proof.
  intros s1.
  assert (Result.filteredSteps (Dlm.result s1) = (0, -1)) as Hfs.
  { pose proof (spec_forwardFilter
                  (keeps (fun s => Result.filteredSteps (Dlm.result s))) any_exn
                  (fun _ _ => eq_refl) (fun _ _ _ => eq_refl) (fun _ _ => I)
                  start end_ save ForgetPrevious renew I I (_initialize data b)) as H.
    apply wp_run in H. fold s1 in H.
    assert (keeps (fun s => Result.filteredSteps (Dlm.result s))
              (_initialize data b) s1) as Hk
      by (destruct (snd _); [exact H | exact (proj1 H)]).
    exact Hk. }
  split.
  - intros date. unfold _setModelStatus, bind, gets. rewrite Hfs. simpl.
    destruct (Z.ltb_spec date 0); [done |].
    destruct (Z.gtb_spec date (-1)); [done | lia].
  - intros st days ignoreFuture Hst. unfold _backwardSmoother, bind, gets.
    rewrite Hfs. simpl. destruct (Z.ltb_spec (-1) st); [done | lia].
Qed.

Lemma cursor_stays_closed (c : call) (s : state) :
  opens_forecast c = false -> cursor s = None -> cursor (fst (run c s)) = None.
Proof.
  intros Hc Hcur.
  assert (wp (run c) s (fun _ s' => cursor s' = None) (fun _ s' => cursor s' = None))
    as Hwp.
  { assert (forall m : M unit,
              spec (keeps cursor) any_exn m ->
              wp m s (fun _ s' => cursor s' = None) (fun _ s' => cursor s' = None))
      as Hkeep.
    { intros m Hm. eapply wp_mono; [apply Hm | |]; unfold keeps; simpl.
      - intros _ s' ->. done.
      - intros _ s' [-> _]. done. }
    destruct c as [| | | | fd | featureDict date | | |]; try discriminate; cbn [run].
    - apply Hkeep. unfold _forwardFilter. spec_auto.
    - apply Hkeep. unfold _backwardSmoother. spec_auto.
    - apply Hkeep. unfold _predictInSample. spec_auto.
    - unfold _continuePredict. apply wp_nest, wp_bind, wp_gets.
      unfold cursor in Hcur. rewrite Hcur. by apply wp_bind, wp_raise.
    - apply Hkeep. destruct date as [date |]; [spec_auto |].
      destruct featureDict as [featureDict |]; [| simpl; spec_auto].
      intros s0. eapply wp_mono; [apply spec_constructEvaluation_row | |]; simpl.
      + by intros _ s' [row ->].
      + by intros e s' [[row ->] _].
    - apply Hkeep. spec_auto.
    - apply Hkeep. spec_auto.
    - apply Hkeep. unfold _checkFeatureSize. spec_auto. }
  apply wp_run in Hwp. by destruct (snd _).
Qed.

(** Only [_oneDayAheadPredict] opens a forecast.  After [_clean], and
    after any further calls none of which is [_oneDayAheadPredict] (whether
    they return or raise), the cursor is still absent and [_continuePredict]
    raises the sequencing error. *)
Theorem only_oneDayAhead_opens (cs : list call) (s : state)
    (featureDict : option (gmap string (list value))) :
  Forall (fun c => opens_forecast c = false) cs ->
  let s1 := after cs (fst (_clean s)) in
  cursor s1 = None
  /\ _continuePredict featureDict s1
     = (s1, Raise (NameError MsgContinueBeforeOneDay)).
Proof.
  intros Hcs s1.
  assert (cursor s1 = None) as Hcur.
  { subst s1. assert (cursor (fst (_clean s)) = None) as H0 by done.
    revert H0. generalize (fst (_clean s)) as s0.
    induction Hcs as [| c cs Hc Hcs IH]; intros s0 H0; simpl; [done |].
    apply IH. by apply cursor_stays_closed. }
  split; [done |]. unfold cursor in Hcur.
  unfold _continuePredict, bind, gets. by rewrite Hcur.
Qed.


(** *** The lag feature from the forecasts *)

Lemma slice_last {A} (q : list A) (d : Z) :
  1 <= d <= Py.len q ->
  Py.slice q (Some (- d)) None = drop (length q - Z.to_nat d) q.
Proof.
  intros Hd. unfold Py.slice, Py.clip, Py.len in *.
  destruct (Z.ltb_spec (- d) 0); [| lia].
  replace (Z.to_nat (Z.max (- d + Z.of_nat (length q)) 0))
    with (length q - Z.to_nat d)%nat by lia.
  apply take_ge. rewrite length_drop. lia.
Qed.

(** The lag feature of an autoregressive component whose lag order [d] is
    covered by the forecasts ([1 <= d <= len(forecasts)]): the loop of
    [_continuePredict] puts under the name of the component exactly the last
    [d] forecasts, [d] values, creating the dictionary if there was none and
    leaving the other overrides and the engine as they were.  A component that
    is not autoregressive leaves the dictionary untouched. *)
Theorem lagFeature_last_forecasts (s : state) (currentDate : Z)
    (featureDict : option (gmap string (list value))) (name : string)
    (comp : Component.t num) (base current : Z) (forecasts : list value) :
  cursor s = Some (base, current, forecasts) ->
  Dict.get (Builder.automaticComponents (Dlm.builder s)) name = Some comp ->
  (Component.componentType comp <> "autoReg" ->
   lagFeatureStep currentDate featureDict name s = (s, Return featureDict))
  /\ (Component.componentType comp = "autoReg" ->
      1 <= Component.d comp <= Py.len forecasts ->
      let feature :=
        drop (length forecasts - Z.to_nat (Component.d comp)) forecasts in
      lagFeatureStep currentDate featureDict name s
      = (s, Return (Some (<[name := feature]>
                            (match featureDict with Some d => d | None => ∅ end))))
        /\ Py.len feature = Component.d comp).
Proof.
  unfold cursor. intros Hcur Hget. split.
  - intros Htype. unfold lagFeatureStep, bind, gets. rewrite Hget.
    destruct (String.eqb_spec (Component.componentType comp) "autoReg"); done.
  - intros Htype Hd. split.
    + unfold lagFeatureStep, bind, gets, result_predictStatus, bind, gets, ret.
      rewrite Hget, Htype. simpl. rewrite Hcur. simpl.
      destruct (Z.geb_spec (Py.len forecasts) (Component.d comp)); [| lia].
      by rewrite slice_last.
    + unfold Py.len in *. rewrite length_drop. lia.
Qed.

(** *** The last slot of the in-sample forecast *)

Lemma predictLoop_tail date s1 size m : forall k lists,
  (k + m <= size)%nat ->
  length (fst lists) = size -> length (snd lists) = size ->
  exists lists',
    fold_for ((fun j => 1 + Z.of_nat j) <$> seq k m) lists (predictStep date)
      (forecastState date s1 k)
    = (forecastState date s1 (k + m), Return lists')
    /\ length (fst lists') = size /\ length (snd lists') = size
    /\ forall j, (k + m <= j)%nat ->
         fst lists' !! j = fst lists !! j /\ snd lists' !! j = snd lists !! j.
Proof.
  induction m as [|m IH]; intros k lists Hk Ho Hv; simpl.
  - exists lists. by rewrite Nat.add_0_r.
  - unfold bind at 1. rewrite predictStep_run by (unfold Py.len; lia).
    replace (date + (1 + Z.of_nat k)) with (date + Z.of_nat (S k)) by lia.
    replace (Z.to_nat (1 + Z.of_nat k - 1)) with k by lia.
    change (fst (forecastStep (date + Z.of_nat (S k)) (forecastState date s1 k)))
      with (forecastState date s1 (S k)).
    destruct (IH (S k) (<[k := predicted_obs (forecastState date s1 (S k))]> (fst lists),
                        <[k := predicted_obsVar (forecastState date s1 (S k))]> (snd lists)))
      as (lists' & Hrun & Ho' & Hv' & Htail);
      [lia | simpl; by rewrite length_insert | simpl; by rewrite length_insert |].
    exists lists'. rewrite <- Nat.add_succ_comm. split; [exact Hrun |].
    split; [done |]. split; [done |].
    intros j Hj. destruct (Htail j Hj) as [-> ->]. simpl.
    by rewrite !list_lookup_insert_ne by lia.
Qed.

(** The forecast of the last day of the window is never made.  Under the
    conditions in which [_predictInSample date days] returns, the last slot,
    [days - 1], of both sequences it returns still holds the [None] it was
    created with: the loop runs over the steps [1..days-1] and writes the
    slots [0..days-2]. *)
Theorem predictInSample_last_slot_unset (s : state) (date days : Z) :
  ledger_ok s ->
  fst (Result.filteredSteps (Dlm.result s)) <= date
    <= snd (Result.filteredSteps (Dlm.result s)) ->
  1 <= days ->
  date + days <= Dlm.n s - 1 ->
  exists s' predictedObs predictedObsVar,
    _predictInSample date days s
    = (s', Return (predictedObs, predictedObsVar))
    /\ predictedObs !! Z.to_nat (days - 1) = Some PyNone
    /\ predictedObsVar !! Z.to_nat (days - 1) = Some PyNone.
Proof.
  intros Hok Hdate Hdays Hrange.
  destruct (setModelStatus_restores s date) as [row Hset];
    [apply Hok | destruct Hok as (_ & ? & ?); lia | done |].
  assert (forecastStart date s
          = Dlm.set_model
              (Model.on_prediction (Prediction.set_step (PyInt 0))
                 (Model.set_evaluation row (restored s date))) s) as Hstart.
  { unfold forecastStart, bind. by rewrite Hset. }
  destruct (predictLoop_tail date (forecastStart date s) (Z.to_nat days)
              (Z.to_nat (days - 1)) 0
              (replicate (Z.to_nat days) PyNone, replicate (Z.to_nat days) PyNone))
    as ([obs var] & Hloop & _ & _ & Htail);
    [lia | simpl; by rewrite length_replicate..|].
  simpl in Hloop, Htail.
  exists (forecastState date (forecastStart date s) (Z.to_nat (days - 1))), obs, var.
  split.
  - unfold _predictInSample, bind at 1, gets at 1.
    destruct (Z.gtb_spec (date + days) (Dlm.n s - 1)); [lia |].
    unfold bind at 1. rewrite Hset. unfold bind at 1, modify_model at 1, modify.
    rewrite <- Hloop, Hstart. reflexivity.
  - destruct (Htail (Z.to_nat (days - 1)) ltac:(lia)) as [-> ->]. simpl.
    split; apply lookup_replicate_2; lia.
Qed.


(** *** Checking the sizes of the features *)

Lemma dict_get_NoDup {V} (d : list (string * V)) k v :
  NoDup (Dict.keys d) -> (k, v) ∈ d -> Dict.get d k = Some v.
Proof.
  unfold Dict.keys. induction d as [|[k' v'] d IH]; simpl.
  - intros _ H. by apply elem_of_nil in H.
  - intros Hdup Hin. apply list.NoDup_cons in Hdup as [Hk' Hdup].
    apply elem_of_cons in Hin as [[= -> ->] | Hin].
    + by rewrite String.eqb_refl.
    + destruct (String.eqb_spec k k') as [-> | Hne]; [| by apply IH].
      destruct Hk'. apply list_elem_of_fmap. by exists (k', v).
Qed.

Lemma for_app {X} (xs ys : list X) (body : X -> M unit) s :
  for_ (xs ++ ys) body s = (for_ xs body ;; for_ ys body) s.
Proof.
  revert s. induction xs as [|x xs IH]; intros s; simpl.
  - reflexivity.
  - unfold bind. destruct (body x s) as [s' [[] | e]]; [| done].
    rewrite IH. reflexivity.
Qed.

(** [_checkFeatureSize] on a registry of dynamic components: it returns
    when every component has the length [n] of the data, and otherwise raises
    the size error naming the first component, in the order of the registry,
    whose length differs.  In both cases the engine is left as it was. *)
Theorem checkFeatureSize_first_mismatch (s : state) :
  let dynamic := Builder.dynamicComponents (Dlm.builder s) in
  NoDup (Dict.keys dynamic) ->
  (Forall (fun nc => Component.n (snd nc) = Dlm.n s) dynamic ->
   _checkFeatureSize s = (s, Return tt))
  /\ (forall before name comp others,
        dynamic = before ++ (name, comp) :: others ->
        Forall (fun nc => Component.n (snd nc) = Dlm.n s) before ->
        Component.n comp <> Dlm.n s ->
        _checkFeatureSize s = (s, Raise (NameError (MsgSizeMismatch name)))).
Proof.
  intros dynamic Hdup.
  set (body := fun name : string =>
         dynamic <- gets (fun s => Builder.dynamicComponents (Dlm.builder s)) ;;
         n <- gets Dlm.n ;;
         match Dict.get dynamic name with
         | None => raise (KeyError name)
         | Some comp =>
             if negb (Component.n comp =? n)
             then raise (NameError (MsgSizeMismatch name))
             else ret tt
         end).
  assert (forall xs,
            Forall (fun nc => nc ∈ dynamic /\ Component.n (snd nc) = Dlm.n s) xs ->
            for_ (Dict.keys xs) body s = (s, Return tt)) as Hok.
  { induction xs as [|[name comp] xs IH]; intros Hxs; simpl; [done |].
    apply list.Forall_cons in Hxs as [[Hin Hn] Hxs]. simpl in Hn.
    unfold bind at 1. unfold body at 1, bind, gets. fold dynamic.
    rewrite (dict_get_NoDup dynamic name comp Hdup Hin), Hn, Z.eqb_refl. simpl.
    by apply IH. }
  assert (forall xs, Forall (fun nc => Component.n (snd nc) = Dlm.n s) xs ->
            (forall nc, nc ∈ xs -> nc ∈ dynamic) ->
            Forall (fun nc => nc ∈ dynamic /\ Component.n (snd nc) = Dlm.n s) xs)
    as Hall.
  { intros xs Hxs Hsub. rewrite list.Forall_forall in Hxs.
    apply list.Forall_forall. intros nc Hnc. split; [by apply Hsub | by apply Hxs]. }
  split.
  - intros Hsizes. unfold _checkFeatureSize, bind at 1, gets at 1. fold dynamic.
    destruct (0 <? Py.len dynamic); [| done].
    apply Hok, Hall; done.
  - intros before name comp others Hsplit Hbefore Hcomp.
    unfold _checkFeatureSize, bind at 1, gets at 1. fold dynamic.
    assert ((0 <? Py.len dynamic) = true) as ->.
    { rewrite Hsplit. unfold Py.len. rewrite length_app. simpl.
      apply Z.ltb_lt. lia. }
    fold body. rewrite Hsplit at 1. unfold Dict.keys. rewrite fmap_app.
    rewrite for_app. unfold bind at 1. fold (Dict.keys before).
    rewrite Hok.
    + simpl. unfold bind at 1. unfold body at 1, bind, gets. fold dynamic.
      rewrite (dict_get_NoDup dynamic name comp Hdup).
      * destruct (Z.eqb_spec (Component.n comp) (Dlm.n s)); done.
      * rewrite Hsplit. apply elem_of_app. right. by left.
    + apply Hall; [done |]. intros nc Hnc. rewrite Hsplit.
      apply elem_of_app. by left.
Qed.


(** *** The feature error and the component it names *)

Lemma overrideStep_names get set featureDict i (names : list string) s0 s :
  registries s = registries s0 -> i ∈ names ->
  wp (overrideStep get set featureDict None i) s
     (fun _ s' => registries s' = registries s0)
     (fun e _ => forall j, e = NameError (MsgNoFeatureFor j) ->
                           featureDict !! j = None /\ j ∈ names).
Proof.
  intros Hreg Hi. unfold overrideStep. destruct (featureDict !! i) eqn:Hfd.
  - assert (spec (keeps registries) not_NameError (write_slice i l)) as Hspec.
    { unfold write_slice, componentIndex_get, modify_model. spec_auto.
      apply spec_lift; [apply _ |]. intros e He.
      unfold Py.slice_assign in He. case_decide; [done |].
      destruct l as [|? [|]]; by simplify_eq. }
    eapply wp_mono; [apply Hspec | |]; unfold keeps; simpl.
    + intros _ s' ->. done.
    + intros e s' [_ He] j ->. done.
  - apply wp_raise. by intros j [= <-].
Qed.

(** The feature error names a component without a feature.  When
    [_constructEvaluationForPrediction] raises the error for a component [i],
    no date was given, a feature dictionary was, [i] is not one of its keys,
    and [i] is a registered dynamic or automatic component.  The calls made
    by the forecasts, which always give a date, never raise it. *)
Theorem feature_error_names_missing (s : state)
    (featureDict : option (gmap string (list value))) (date : option Z)
    (i : string) :
  snd (_constructEvaluationForPrediction featureDict date s)
  = Raise (NameError (MsgNoFeatureFor i)) ->
  date = None
  /\ exists d,
       featureDict = Some d
       /\ d !! i = None
       /\ (i ∈ Dict.keys (Builder.dynamicComponents (Dlm.builder s))
           \/ i ∈ Dict.keys (Builder.automaticComponents (Dlm.builder s))).
Proof.
  intros Hraise. destruct date as [date |].
  - pose proof (spec_constructEvaluationForPrediction anything not_NameError
                  (fun _ _ => I) (fun _ H => H) featureDict date s) as H.
    apply wp_run in H. rewrite Hraise in H. by destruct H.
  - destruct featureDict as [d |]; [| discriminate].
    split; [done |]. exists d. split; [done |].
    set (names := Dict.keys (Builder.dynamicComponents (Dlm.builder s))
                  ++ Dict.keys (Builder.automaticComponents (Dlm.builder s))).
    assert (wp (_constructEvaluationForPrediction (Some d) None) s
              (fun _ _ => True)
              (fun e _ => forall j, e = NameError (MsgNoFeatureFor j) ->
                                    d !! j = None /\ j ∈ names)) as Hwp.
    { unfold _constructEvaluationForPrediction. apply wp_bind, wp_gets.
      apply (wp_seq _ _ _ (fun _ s' => registries s' = registries s)).
      { apply (wp_for (fun s' => registries s' = registries s)); [done |].
        intros x s' Hx Hs'. apply overrideStep_names; [done |].
        subst names. apply elem_of_app. by left. }
      intros [] s1 Hs1. apply wp_bind, wp_gets.
      apply (wp_seq _ _ _ (fun _ s' => registries s' = registries s)).
      { apply (wp_for (fun s' => registries s' = registries s)); [done |].
        intros x s' Hx Hs'. apply overrideStep_names; [done |].
        subst names. apply elem_of_app. right.
        unfold registries in Hs1. by injection Hs1 as _ <-. }
      intros [] s2 Hs2. by apply wp_modify_model. }
    apply wp_run in Hwp. rewrite Hraise in Hwp.
    destruct (Hwp i eq_refl) as [Hnone Hin]. split; [done |].
    subst names. by apply elem_of_app in Hin.
Qed.

End Engine.

(** ** The methods on the sample engines *)

Section Examples.

Import Sample.

Local Abbreviation run_forwardFilter :=
  (_forwardFilter forwardFilter initializeObservation builder_evaluation).
Local Abbreviation run_backwardSmoother :=
  (_backwardSmoother backwardSmoother builder_evaluation).
Local Abbreviation run_predictInSample :=
  (_predictInSample predict builder_evaluation).
Local Abbreviation run_oneDayAheadPredict :=
  (_oneDayAheadPredict predict comp_updateEvaluation builder_evaluation).
Local Abbreviation run_continuePredict :=
  (_continuePredict predict comp_updateEvaluation builder_evaluation).
Local Abbreviation run_continueMany :=
  (continueMany predict comp_updateEvaluation builder_evaluation).
Local Abbreviation run_constructEvaluation :=
  (_constructEvaluationForPrediction comp_updateEvaluation builder_evaluation).
Local Abbreviation run_call :=
  (run forwardFilter predict backwardSmoother initializeObservation
     comp_updateEvaluation builder_evaluation).

Lemma filtered3_ok (b : Builder.t Z) : ledger_ok (filtered3 b).
Proof. split; [intros f; reflexivity | split; simpl; lia]. Defined.

(** Against C1 as stated: on a fresh engine over three observations the
    forward filter over [[0, 2]], with [ForgetPrevious] set, completes, and
    the upper bound of [filteredSteps] is still -1, not [end = 2]; the range
    has not become [[0, 2]]. *)
Lemma forwardFilter_filteredSteps_not_advanced :
  let r := run_forwardFilter 0 (Some 2) (SaveStr "all") true false fresh3 in
  snd r = Return tt
  /\ Result.series (Dlm.result (fst r)) filteredObs = [PyNum 1; PyNum 2; PyNum 3]
  /\ snd (Result.filteredSteps (Dlm.result (fst r))) <> 2
  /\ Result.filteredSteps (Dlm.result (fst r)) <> (0, 2).
Proof. vm_compute. repeat split; discriminate. Qed.

(** C2: the code on an engine with an autoregressive component of lag
    order 2 and a forecast sequence of length 1.  The specification asks for the
    feature [data[1:3] + forecasts] and a normal return; the call raises
    [AttributeError] on [self.predictStatus] and leaves the engine as it was. *)
Theorem continuePredict_backfill_raises :
  run_continuePredict None (forecasting3 builder_autoReg)
  = (forecasting3 builder_autoReg, Raise (AttributeError "predictStatus")).
Proof.
  by apply (continuePredict_short_history _ _ _ _ None 1 2 [PyNum 2] "ar2"
              (Component.mk "autoReg" 2 3 [PyNum 0; PyNum 0]) []).
Qed.

(** Against C3 as stated: with overrides for the component [a] only and no
    date, [_constructEvaluationForPrediction] raises the feature error for
    [b] after the slice of [a] has been overwritten. *)
Lemma constructEvaluation_partial_write :
  let s := filtered3 builder_dynamic in
  let r := run_constructEvaluation (Some {["a" := [PyNum 7]]}) None s in
  snd r = Raise (NameError (MsgNoFeatureFor "b"))
  /\ Model.evaluation (Dlm.model s) = [PyNum 0; PyNum 0]
  /\ Model.evaluation (Dlm.model (fst r)) = [PyNum 7; PyNum 0].
Proof. vm_compute. by repeat split. Qed.

Lemma rejected_call_leaves_state_witness :
  snd (run_call (PredictInSample 1 2) (filtered3 builder0))
  = Raise (NameError MsgOutOfSample)
  /\ fst (run_call (PredictInSample 1 2) (filtered3 builder0))
     = filtered3 builder0.
Proof.
  split; [reflexivity |].
  apply (rejected_call_leaves_state forwardFilter predict backwardSmoother
           initializeObservation comp_updateEvaluation builder_evaluation
           (PredictInSample 1 2) (filtered3 builder0) MsgOutOfSample).
  reflexivity.
Defined.

(** Against C4 as stated: for [date = 0] and [days = 2] on three filtered
    dates the two sequences returned have length 2, not [days - 1 = 1]. *)
Lemma predictInSample_length_is_days :
  exists predictedObs predictedObsVar,
    snd (run_predictInSample 0 2 (filtered3 builder0))
    = Return (predictedObs, predictedObsVar)
    /\ Py.len predictedObs <> 2 - 1
    /\ Py.len predictedObsVar <> 2 - 1.
Proof.
  exists [PyNum 1; PyNone], [PyNum 1; PyNone]. vm_compute.
  repeat split; discriminate.
Qed.

Lemma predictInSample_lengths_witness :
  exists s' predictedObs predictedObsVar,
    run_predictInSample 0 2 (filtered3 builder0)
    = (s', Return (predictedObs, predictedObsVar))
    /\ Py.len predictedObs = 2
    /\ Py.len predictedObsVar = 2
    /\ Prediction.step
         (Model.prediction
            (Dlm.model (forecastStart builder_evaluation 0 (filtered3 builder0))))
       = PyInt 0
    /\ forall i, 1 <= i <= 2 - 1 ->
         let si :=
           forecastState predict builder_evaluation 0
             (forecastStart builder_evaluation 0 (filtered3 builder0)) (Z.to_nat i) in
         predictedObs !! Z.to_nat (i - 1) = Some (predicted_obs si)
         /\ predictedObsVar !! Z.to_nat (i - 1) = Some (predicted_obsVar si).
Proof.
  apply (predictInSample_lengths predict builder_evaluation (filtered3 builder0) 0 2).
  - apply filtered3_ok.
  - simpl. lia.
  - lia.
  - simpl. lia.
Defined.

(** Against C5 as stated: with [n = 3], [date = 1] and [days = 2],
    [date + days] does not exceed the series length, and the call raises the
    range error all the same. *)
Lemma predictInSample_rejects_series_length :
  1 + 2 <= Dlm.n (filtered3 builder0)
  /\ snd (run_predictInSample 1 2 (filtered3 builder0))
     = Raise (NameError MsgOutOfSample).
Proof. vm_compute. split; [discriminate | reflexivity]. Qed.

Lemma forecast_cursor_monotone_witness :
  let s1 := fst (run_oneDayAheadPredict 1 None (filtered3 builder0)) in
  let s2 := fst (run_continueMany [None; None] s1) in
  exists forecasts,
    cursor s2 = Some (1, 1 + 1 + 2, forecasts)
    /\ forecasts = [PyNum 2; PyNum 2; PyNum 2]
    /\ Py.len forecasts = 2 + 1.
Proof.
  destruct (forecast_cursor_monotone predict comp_updateEvaluation
              builder_evaluation (filtered3 builder0) 1 None [None; None]
              (PyNum 2, PyNum 2) [(PyNum 2, PyNum 2); (PyNum 2, PyNum 2)])
    as [Hcursor _].
  - reflexivity.
  - reflexivity.
  - exact Hcursor.
Defined.

(** Against C7 as stated: on a fresh engine over three observations,
    [start = 5] is positive and beyond [filteredSteps[1] + 1 = 0], and the
    call, with [ForgetPrevious] false, returns without an error: [start]
    is past the default [end = 2] and nothing is run. *)
Lemma forwardFilter_gap_not_reported :
  0 < 5
  /\ 5 > snd (Result.filteredSteps (Dlm.result fresh3)) + 1
  /\ run_forwardFilter 5 None (SaveStr "all") false false fresh3
     = (fresh3, Return tt).
Proof. vm_compute. by repeat split. Qed.

Lemma forwardFilter_starts_from_previous_witness :
  0 < 1 <= 2
  /\ exists row,
      let s := filtered3 builder0 in
      let s1 := Dlm.set_model (Model.set_evaluation row (restored s (1 - 1))) s in
      _setModelStatus builder_evaluation (1 - 1) s = (s1, Return tt)
      /\ Forall (fun fx => slot (fst fx) (1 - 1) s
                           = Some (snd fx (Dlm.model s1))) tracked
      /\ run_forwardFilter 1 (Some 2) (SaveStr "all") false false s
         = bind
             (fold_for (Py.range 1 (2 + 1)) 1
                (forwardStep forwardFilter initializeObservation
                   builder_evaluation (SaveStr "all") false))
             (fun _ => ret tt) s1.
Proof.
  split; [lia |].
  apply (forwardFilter_starts_from_previous forwardFilter initializeObservation
           builder_evaluation (filtered3 builder0) 1 (Some 2) (SaveStr "all") false).
  - lia.
  - simpl. lia.
  - apply filtered3_ok.
  - simpl. lia.
Defined.

Lemma smoother_boundary_identity_witness :
  exists s',
    run_backwardSmoother None None false (filtered3 builder0) = (s', Return tt)
    /\ slot smoothedObs 2 s' = slot filteredObs 2 s'
    /\ slot smoothedObsVar 2 s' = slot filteredObsVar 2 s'
    /\ slot smoothedState 2 s' = slot filteredState 2 s'
    /\ slot smoothedCov 2 s' = slot filteredCov 2 s'
    /\ (forall f, is_smoothed f = false ->
          slot f 2 s' = slot f 2 (filtered3 builder0)).
Proof.
  apply (smoother_boundary_identity backwardSmoother builder_evaluation
           (filtered3 builder0) None None false).
  - apply filtered3_ok.
  - simpl. lia.
  - left. reflexivity.
Defined.

Lemma setModelStatus_copy_roundtrip_witness :
  exists s1 s2,
    _setModelStatus builder_evaluation 1 (filtered3 builder0) = (s1, Return tt)
    /\ _copy 1 "forwardFilter" s1 = (s2, Return tt)
    /\ same_ledger (Dlm.result s2) (Dlm.result (filtered3 builder0)).
Proof.
  apply (setModelStatus_copy_roundtrip builder_evaluation (filtered3 builder0) 1).
  - apply filtered3_ok.
  - simpl. lia.
Defined.

Lemma smoother_days_clamped_witness :
  5 > 1 + 1
  /\ smootherEnd 1 (Some 5) = 0
  /\ run_backwardSmoother (Some 1) (Some 5) false (filtered3 builder0)
     = run_backwardSmoother (Some 1) None false (filtered3 builder0).
Proof.
  split; [lia |].
  destruct (smoother_days_clamped backwardSmoother builder_evaluation
              (filtered3 builder0) (Some 1) 5 false ltac:(simpl; lia))
    as (Hend & _ & Hsame & _).
  split; [exact Hend | exact Hsame].
Defined.

End Examples.

(** ** More runs on the sample engines *)

Section MoreExamples.

Import Sample.

Local Abbreviation run_forwardFilter :=
  (_forwardFilter forwardFilter initializeObservation builder_evaluation).
Local Abbreviation run_predictInSample :=
  (_predictInSample predict builder_evaluation).
Local Abbreviation run_continuePredict :=
  (_continuePredict predict comp_updateEvaluation builder_evaluation).
Local Abbreviation run_constructEvaluation :=
  (_constructEvaluationForPrediction comp_updateEvaluation builder_evaluation).
Local Abbreviation run_call :=
  (run forwardFilter predict backwardSmoother initializeObservation
     comp_updateEvaluation builder_evaluation).

Lemma filtered3_sized (b : Builder.t Z) : ledger_sized (filtered3 b).
Proof. intros f. reflexivity. Defined.

Lemma fresh3_sized : ledger_sized fresh3.
Proof. intros f. reflexivity. Defined.

Lemma popout_removes_witness :
  exists s',
    _popout 1 (filtered3 builder0) = (s', Return tt)
    /\ same_but_series (filtered3 builder0) s'
    /\ forall f, Result.series (Dlm.result s') f
                 = delete (Z.to_nat 1) (Result.series (Dlm.result (filtered3 builder0)) f).
Proof.
  apply (popout_removes (filtered3 builder0) 1).
  - apply filtered3_sized.
  - simpl. lia.
Defined.

Lemma popout_out_of_range_witness :
  _popout 3 (filtered3 builder0) = (filtered3 builder0, Raise IndexError).
Proof.
  apply (popout_out_of_range (filtered3 builder0) 3).
  - apply filtered3_sized.
  - right. simpl. lia.
Defined.

Lemma append_popout_roundtrip_witness :
  exists s1 s2,
    _appendResult 1 (filtered3 builder0) = (s1, Return tt)
    /\ _popout (-1) s1 = (s2, Return tt)
    /\ same_but_series (filtered3 builder0) s2
    /\ forall f, Result.series (Dlm.result s2) f
                 = Result.series (Dlm.result (filtered3 builder0)) f.
Proof.
  apply (append_popout_roundtrip (filtered3 builder0)).
  apply filtered3_sized.
Defined.

Lemma copy_reverseCopy_roundtrip_witness :
  exists s1 s2,
    _copy 1 "forwardFilter" (filtered3 builder0) = (s1, Return tt)
    /\ _reverseCopy 1 s1 = (s2, Return tt)
    /\ Dlm.builder s2 = Dlm.builder (filtered3 builder0)
    /\ Dlm.result s2 = Dlm.result s1.
Proof.
  apply (copy_reverseCopy_roundtrip (filtered3 builder0) 1).
  - apply filtered3_sized.
  - simpl. lia.
Defined.

Lemma forwardFilter_writes_within_witness :
  writes_only
    (fun f i => is_forward f = true /\ save_here (SaveInt 2) i = true /\ 1 <= i <= 2)
    (filtered3 builder0)
    (fst (run_forwardFilter 1 (Some 2) (SaveInt 2) false false (filtered3 builder0))).
Proof.
  apply (forwardFilter_writes_within forwardFilter initializeObservation
           builder_evaluation (filtered3 builder0) 1 (Some 2) (SaveInt 2) false false).
  lia.
Defined.

Lemma forwardFilter_save_other_string_witness :
  Dlm.result (fst (run_forwardFilter 0 None (SaveStr "end") false false fresh3))
  = Dlm.result fresh3.
Proof.
  apply (forwardFilter_save_other_string forwardFilter initializeObservation
           builder_evaluation fresh3 0 None "end" false false).
  discriminate.
Defined.

Lemma forecasts_keep_the_record_witness :
  recorded (fst (run_call (OneDayAheadPredict 1 None) (filtered3 builder0)))
  = recorded (filtered3 builder0).
Proof.
  apply (forecasts_keep_the_record forwardFilter predict backwardSmoother
           initializeObservation comp_updateEvaluation builder_evaluation
           (OneDayAheadPredict 1 None) (filtered3 builder0)).
  reflexivity.
Defined.

Lemma rejection_table_witness :
  snd (run_call (OneDayAheadPredict 5 None) (filtered3 builder0))
  = Raise (NameError MsgBeyondDataRange)
  <-> rejection (OneDayAheadPredict 5 None) (filtered3 builder0)
      = Some MsgBeyondDataRange.
Proof.
  apply (rejection_table forwardFilter predict backwardSmoother
           initializeObservation comp_updateEvaluation builder_evaluation
           (OneDayAheadPredict 5 None) (filtered3 builder0) MsgBeyondDataRange).
  reflexivity.
Defined.

Lemma forwardFilter_records_last_witness :
  let s' := fst (run_forwardFilter 0 (Some 2) (SaveStr "all") false false fresh3) in
  Forall (fun fx => slot (fst fx) 2 s' = Some (snd fx (Dlm.model s'))) tracked.
Proof.
  intros s'.
  apply (forwardFilter_records_last forwardFilter initializeObservation
           builder_evaluation fresh3 s' 0 (Some 2) (SaveStr "all") false false).
  - apply fresh3_sized.
  - lia.
  - simpl. lia.
  - reflexivity.
  - assert (snd (run_forwardFilter 0 (Some 2) (SaveStr "all") false false fresh3)
            = Return tt) as Hreturns by (vm_compute; reflexivity).
    subst s'. revert Hreturns.
    destruct (run_forwardFilter 0 (Some 2) (SaveStr "all") false false fresh3)
      as [s1 o].
    simpl. intros ->. reflexivity.
Defined.

Lemma forwardFilter_restart_returns_witness :
  exists s',
    run_forwardFilter 0 None (SaveStr "all") false false fresh3 = (s', Return tt)
    /\ sized_as fresh3 s'.
Proof.
  apply (forwardFilter_restart_returns forwardFilter initializeObservation
           builder_evaluation fresh3 0 None (SaveStr "all") false).
  - apply fresh3_sized.
  - reflexivity.
  - lia.
  - simpl. lia.
  - left. reflexivity.
Defined.

Lemma only_oneDayAhead_opens_witness :
  let s1 :=
    after forwardFilter predict backwardSmoother initializeObservation
      comp_updateEvaluation builder_evaluation
      [PredictInSample 0 1; ContinuePredict None]
      (fst (_clean (forecasting3 builder0))) in
  cursor s1 = None
  /\ run_continuePredict None s1 = (s1, Raise (NameError MsgContinueBeforeOneDay)).
Proof.
  apply (only_oneDayAhead_opens forwardFilter predict backwardSmoother
           initializeObservation comp_updateEvaluation builder_evaluation
           [PredictInSample 0 1; ContinuePredict None] (forecasting3 builder0) None).
  repeat constructor.
Defined.

Lemma lagFeature_last_forecasts_witness :
  lagFeatureStep 2 None "ar2" (forecasting3_twice builder_autoReg)
  = (forecasting3_twice builder_autoReg,
     Return (Some (<["ar2" := [PyNum 1; PyNum 2]]> ∅)))
  /\ Py.len [PyNum 1; PyNum 2 : pyval Z] = 2.
Proof.
  destruct (lagFeature_last_forecasts (forecasting3_twice builder_autoReg) 2 None
              "ar2" (Component.mk "autoReg" 2 3 [PyNum 0; PyNum 0])
              0 2 [PyNum 1; PyNum 2]) as [_ Hfeature].
  - reflexivity.
  - reflexivity.
  - apply Hfeature; [reflexivity | unfold Py.len; simpl; lia].
Defined.

Lemma predictInSample_last_slot_unset_witness :
  exists s' predictedObs predictedObsVar,
    run_predictInSample 0 2 (filtered3 builder0)
    = (s', Return (predictedObs, predictedObsVar))
    /\ predictedObs !! Z.to_nat (2 - 1) = Some PyNone
    /\ predictedObsVar !! Z.to_nat (2 - 1) = Some PyNone.
Proof.
  apply (predictInSample_last_slot_unset predict builder_evaluation
           (filtered3 builder0) 0 2).
  - apply filtered3_ok.
  - simpl. lia.
  - lia.
  - simpl. lia.
Defined.

Lemma checkFeatureSize_first_mismatch_witness :
  _checkFeatureSize (filtered3 builder_dynamic)
  = (filtered3 builder_dynamic, Return tt).
Proof.
  apply (checkFeatureSize_first_mismatch (filtered3 builder_dynamic)).
  - apply (bool_decide_unpack _). vm_compute. exact I.
  - repeat constructor.
Defined.

Lemma feature_error_names_missing_witness :
  @None Z = None
  /\ exists d,
       Some ({["a" := [PyNum 7]]} : gmap string (list (pyval Z))) = Some d
       /\ d !! "b" = None
       /\ ("b" ∈ Dict.keys (Builder.dynamicComponents
                              (Dlm.builder (filtered3 builder_dynamic)))
           \/ "b" ∈ Dict.keys (Builder.automaticComponents
                                 (Dlm.builder (filtered3 builder_dynamic)))).
Proof.
  apply (feature_error_names_missing comp_updateEvaluation builder_evaluation
           (filtered3 builder_dynamic) (Some {["a" := [PyNum 7]]}) None "b").
  vm_compute. reflexivity.
Defined.

End MoreExamples.
